(** * SD Tennis Lessons backend: a shallow embedding and its checked properties

    The development follows the three source files:
    - [coaching_prompt.py]: the prompt texts and [build_user_prompt];
    - [analysis_pipeline.py]: [extract_frames], [get_video_duration],
      [analyze_frames_with_claude], [analyze_tennis_video];
    - [app.py]: [allowed_file], the [/api/analyze] handler and the error
      handlers.

    Modelling conventions.
    - A Python [str] is a [string]: a sequence of bytes, the UTF-8 encoding
      of the text.  Splitting at an ASCII character and replacing one ASCII
      character by another are the same on the bytes as on the characters,
      and a slice [s[:n]] is taken on the characters, by their lead bytes.
    - The methods of [str] whose result depends on the Unicode tables
      ([lower], [title], [strip]) and [int()] of a text are not rebuilt: they
      are taken as given, as fields of [Externals], and every theorem holds
      for whatever these functions are.  The sample worlds fill them with
      versions for ASCII text ([ascii_lower], [ascii_title], [ascii_strip],
      [ascii_int]), and are run on ASCII text only.
    - A Python [dict] is a [gmap] with [string] keys; the values a dict of
      this program can hold are collected in [pyval].
    - A Python [float] that holds a duration is a rational number ([Q]);
      division and the print [:.2f] are done on the exact value.
    - An exception is a value of [exn]: its class and its [str()].  A function
      that can raise returns [result A].
    - The media tool, the hosted model, the upload stream and the random
      names are inputs of the model ([Externals], [request]); the scratch
      directory is an explicit finite map from paths to file contents.
    - [print] calls only log, and are left out. *)

From Stdlib Require Import Ascii QArith Qabs Qminmax Lqa.
From stdpp Require Import gmap strings list fin_maps pretty sorting.

Local Open Scope Z_scope.

(** ** Python values and exceptions *)

Inductive pyval :=
  | VNone
  | VBool (b : bool)
  | VInt (z : Z)
  | VStr (s : string).

#[global] Instance pyval_eq_dec : EqDecision pyval.
Proof. solve_decision. Defined.

(** [bool(v)] *)
Definition truthy (v : pyval) : bool :=
  match v with
  | VNone => false
  | VBool b => b
  | VInt z => negb (z =? 0)
  | VStr s => negb (bool_decide (s = ""))
  end.

(** [str(v)], what an f-string field prints *)
Definition py_str (v : pyval) : string :=
  match v with
  | VNone => "None"
  | VBool true => "True"
  | VBool false => "False"
  | VInt z => pretty z
  | VStr s => s
  end.

(** [d.get(k, dflt)] *)
Definition dict_get (d : gmap string pyval) (k : string) (dflt : pyval) : pyval :=
  default dflt (d !! k).

Inductive exn_class :=
  | FileNotFoundError
  | RuntimeError
  | APIError
  | JSONDecodeError
  | KeyError
  | ValueError
  | TypeError
  | IndexError
  | ZeroDivisionError
  | TimeoutExpired
  | OSError.

#[global] Instance exn_class_eq_dec : EqDecision exn_class.
Proof. solve_decision. Defined.

Record exn := Raise { exn_cls : exn_class; exn_msg : string }.

Inductive result (A : Type) :=
  | Ok (a : A)
  | Err (e : exn).
Arguments Ok {A} a.
Arguments Err {A} e.

Definition bind {A B} (r : result A) (k : A -> result B) : result B :=
  match r with
  | Ok a => k a
  | Err e => Err e
  end.

Notation "x <- r ;; k" := (bind r (fun x => k))
  (at level 100, r at next level, right associativity).

(** ** Strings *)

Definition dq : string := String (ascii_of_nat 34) "".

Definition is_upper (c : ascii) : bool :=
  let n := nat_of_ascii c in (65 <=? n)%nat && (n <=? 90)%nat.
Definition is_lower (c : ascii) : bool :=
  let n := nat_of_ascii c in (97 <=? n)%nat && (n <=? 122)%nat.
Definition is_cased (c : ascii) : bool := is_upper c || is_lower c.

Definition char_lower (c : ascii) : ascii :=
  if is_upper c then ascii_of_nat (nat_of_ascii c + 32) else c.
Definition char_upper (c : ascii) : ascii :=
  if is_lower c then ascii_of_nat (nat_of_ascii c - 32) else c.

Fixpoint str_map (f : ascii -> ascii) (s : string) : string :=
  match s with
  | "" => ""
  | String c s' => String (f c) (str_map f s')
  end.

(** [s.lower()], for ASCII text *)
Definition ascii_lower (s : string) : string := str_map char_lower s.

(** [s.replace(a, b)] for one-character [a] and [b] *)
Definition replace_char (a b : ascii) (s : string) : string :=
  str_map (fun c => if bool_decide (c = a) then b else c) s.

(** [s.title()], for ASCII text: a letter that follows a letter is
    lowercased, any other letter is uppercased. *)
Fixpoint ascii_title_go (prev_cased : bool) (s : string) : string :=
  match s with
  | "" => ""
  | String c s' =>
      String (if prev_cased then char_lower c else char_upper c)
             (ascii_title_go (is_cased c) s')
  end.
Definition ascii_title (s : string) : string := ascii_title_go false s.

(** ['.' in s] *)
Fixpoint contains_char (a : ascii) (s : string) : bool :=
  match s with
  | "" => false
  | String c s' => bool_decide (c = a) || contains_char a s'
  end.

(** [s.rsplit(a, 1)]: split once, at the last occurrence of [a]; a string
    without [a] comes back whole, as a one-element list. *)
Fixpoint rsplit1 (a : ascii) (s : string) : list string :=
  match s with
  | "" => [""]
  | String c s' =>
      match rsplit1 a s' with
      | [hd; tl] => [String c hd; tl]
      | _ => if bool_decide (c = a) then [""; s'] else [String c s']
      end
  end.

(** The white space of [str.strip()] below 128: tab to carriage return,
    the four separators 28 to 31, and the space. *)
Definition ascii_is_space (c : ascii) : bool :=
  let n := nat_of_ascii c in
  ((9 <=? n)%nat && (n <=? 13)%nat) || ((28 <=? n)%nat && (n <=? 31)%nat)
  || (n =? 32)%nat.

(** [s.strip()], for ASCII text *)
Fixpoint ascii_lstrip (s : string) : string :=
  match s with
  | String c s' => if ascii_is_space c then ascii_lstrip s' else s
  | "" => ""
  end.
Definition ascii_rstrip (s : string) : string :=
  String.rev (ascii_lstrip (String.rev s)).
Definition ascii_strip (s : string) : string := ascii_rstrip (ascii_lstrip s).

(** A byte [10xxxxxx] continues the character begun by the lead byte before
    it; every other byte begins a character. *)
Definition is_continuation (c : ascii) : bool :=
  let n := nat_of_ascii c in (128 <=? n)%nat && (n <? 192)%nat.

(** [len(s)]: the number of characters *)
Fixpoint char_count (s : string) : nat :=
  match s with
  | "" => 0
  | String c s' =>
      if is_continuation c then char_count s' else S (char_count s')
  end.

(** [s[:n]]: the first [n] characters, each with its continuation bytes *)
Fixpoint str_take (n : nat) (s : string) : string :=
  match s with
  | "" => ""
  | String c s' =>
      if is_continuation c then String c (str_take n s')
      else
        match n with
        | O => ""
        | S n' => String c (str_take n' s')
        end
  end.

Fixpoint is_prefix (p s : string) : bool :=
  match p, s with
  | "", _ => true
  | String a p', String b s' => bool_decide (a = b) && is_prefix p' s'
  | _, _ => false
  end.
Definition is_suffix (p s : string) : bool :=
  is_prefix (String.rev p) (String.rev s).


(** The white space [int()] skips below 128: tab to carriage return, and
    the space. *)
Definition int_is_space (c : ascii) : bool :=
  let n := nat_of_ascii c in
  ((9 <=? n)%nat && (n <=? 13)%nat) || (n =? 32)%nat.

Fixpoint int_lstrip (s : string) : string :=
  match s with
  | String c s' => if int_is_space c then int_lstrip s' else s
  | "" => ""
  end.
Definition int_strip (s : string) : string :=
  String.rev (int_lstrip (String.rev (int_lstrip s))).

(** [int(s)], for short ASCII text: optional sign, decimal digits, single
    underscores between digits, white space around.  [None] stands for
    [ValueError]. *)
Fixpoint int_digits (acc : Z) (prev_digit : bool) (s : string) : option Z :=
  match s with
  | "" => if prev_digit then Some acc else None
  | String c s' =>
      match Ascii.is_nat c with
      | Some d => int_digits (10 * acc + Z.of_nat d) true s'
      | None =>
          if bool_decide (c = "_"%char) && prev_digit
          then int_digits acc false s'
          else None
      end
  end.

Definition ascii_int (s : string) : option Z :=
  match int_strip s with
  | String "-" s' => Z.opp <$> int_digits 0 false s'
  | String "+" s' => int_digits 0 false s'
  | s' => int_digits 0 false s'
  end.

Abbreviation bytes := (list Byte.byte).

(** [base64.standard_b64encode(b).decode("utf-8")] *)
Definition b64_char (n : N) : ascii :=
  if (n <? 26)%N then ascii_of_N (65 + n)
  else if (n <? 52)%N then ascii_of_N (97 + (n - 26))
  else if (n <? 62)%N then ascii_of_N (48 + (n - 52))
  else if (n =? 62)%N then "+"%char else "/"%char.

Fixpoint standard_b64encode (l : bytes) : string :=
  match l with
  | [] => ""
  | [a] =>
      let x := Byte.to_N a in
      String (b64_char (x / 4)) (String (b64_char (x mod 4 * 16)) "==")
  | [a; b] =>
      let x := Byte.to_N a in
      let y := Byte.to_N b in
      String (b64_char (x / 4))
        (String (b64_char (x mod 4 * 16 + y / 16))
           (String (b64_char (y mod 16 * 4)) "="))
  | a :: b :: c :: rest =>
      let x := Byte.to_N a in
      let y := Byte.to_N b in
      let z := Byte.to_N c in
      String (b64_char (x / 4))
        (String (b64_char (x mod 4 * 16 + y / 16))
           (String (b64_char (y mod 16 * 4 + z / 64))
              (String (b64_char (z mod 64)) (standard_b64encode rest))))
  end%N.

(** ** Floats as rationals *)

(** The integer nearest to [q], ties to the even one. *)
Definition round_half_even (q : Q) : Z :=
  let n := Qnum q in
  let d := Zpos (Qden q) in
  let f := n / d in
  match (2 * (n mod d)) ?= d with
  | Lt => f
  | Gt => f + 1
  | Eq => if Z.even f then f else f + 1
  end.

(** The number of hundredths [:.2f] prints for [q], sign apart. *)
Definition hundredths (q : Q) : Z := round_half_even (Qabs q * 100).

Definition pad2 (n : Z) : string :=
  if n <? 10 then "0" +:+ pretty n else pretty n.

(** [f"{q:.2f}"], on the exact rational.  Python prints the double nearest
    to the quotient, so the two agree where the quotient is a double and has
    at most two decimals (as 120/10 and 30/10), which is where the theorems
    below look inside this function; elsewhere it is used as a name. *)
Definition format_2f (q : Q) : string :=
  let h := hundredths q in
  (if Qlt_le_dec q 0 then "-" else "")
  +:+ pretty (h / 100) +:+ "." +:+ pad2 (h mod 100).


(** ** The outside world *)

(** [ffprobe] run on a file.  [ProbeDuration d]: its output was JSON whose
    [format.duration] converts to the float [d].  [ProbeRaises e]: one of
    [subprocess.run], [json.loads], the two subscripts or [float()] raised
    [e]; the exit status of the tool is not looked at. *)
Inductive probe_outcome :=
  | ProbeDuration (d : Q)
  | ProbeRaises (e : exn).

(** [ffmpeg] run on a command line.  [FfmpegExit rc err dir]: it ended with
    status [rc], wrote [err] to its standard error and left the files [dir]
    in the temporary directory.  [FfmpegRaises e]: [subprocess.run] raised
    (the tool is absent, or the 60 seconds ran out). *)
Inductive ffmpeg_outcome :=
  | FfmpegExit (returncode : Z) (stderr : string) (dir : gmap string bytes)
  | FfmpegRaises (e : exn).

(** One element of the message content. *)
Inductive block :=
  | ImageBlock (source_type media_type data : string)
  | TextBlock (text : string).

Record api_request := ApiRequest {
  req_api_key : option string;
  req_model : string;
  req_max_tokens : Z;
  req_system : string;
  req_role : string;
  req_content : list block
}.

(** [client.messages.create(...)] followed by [response.content[0].text]. *)
Inductive api_outcome :=
  | ApiText (text : string)
  | ApiRaises (e : exn).

(** [video_file.save(path)]: the file is written, or the call raises, having
    left nothing or a partial file behind. *)
Inductive save_outcome :=
  | Saved
  | SaveRaises (e : exn) (partial : option bytes).

Record upload := Upload { up_filename : string; up_content : bytes }.

Record Externals := {
  run_ffprobe : list string -> probe_outcome;
  run_ffmpeg : list string -> ffmpeg_outcome;
  (** the name [tempfile.TemporaryDirectory()] picks *)
  mkdtemp : string;
  (** [tempfile.gettempdir()] *)
  gettempdir : string;
  (** [os.environ.get("ANTHROPIC_API_KEY")] *)
  environ_api_key : option string;
  claude : api_request -> api_outcome;
  (** [uuid.uuid4().hex] *)
  uuid4_hex : string;
  (** werkzeug's [secure_filename] *)
  secure_filename : string -> string;
  file_save : upload -> string -> save_outcome;
  (** [s.lower()] *)
  str_lower : string -> string;
  (** [s.title()] *)
  str_title : string -> string;
  (** [s.strip()] *)
  str_strip : string -> string;
  (** [int(s)]; [None] stands for [ValueError] *)
  str_int : string -> option Z
}.


(** ** [coaching_prompt.py] *)

Definition SYSTEM_PROMPT : string :=
  "You are an elite tennis coach with 20+ years of experience, 
trained at IMG Academy in Bradenton, Florida — the world's premier tennis 
development program. You are providing stroke analysis for SD Tennis Lessons, 
a premium coaching service based in San Diego, California.

Your coaching philosophy centers on three pillars:
1. MECHANICS FIRST — proper technique prevents injury and builds consistency
2. PROGRESSIVE CORRECTION — identify the highest-leverage fix, not everything at once  
3. ACTIONABLE DRILLS — every observation must connect to a specific practice exercise

═══════════════════════════════════════════════════════════
ANALYSIS FRAMEWORK — apply to every stroke you evaluate
═══════════════════════════════════════════════════════════

READY POSITION & FOOTWORK
- Split step timing (are they moving before the ball bounces?)
- Stance width and weight distribution
- Recovery position between shots

UNIT TURN (the foundation of every groundstroke)
- Shoulder rotation — is the non-dominant shoulder pointing toward the net at peak turn?
- Hip engagement — hips and shoulders turning together vs. arms only
- Early preparation — racket back before the ball crosses the net

CONTACT POINT
- Distance from body (too close = cramped, too far = reaching)
- Height relative to hip (ideal = waist to shoulder height on groundstrokes)
- Contact point in front of front foot vs. behind

SWING PATH & RACKET HEAD
- Low-to-high swing path for topspin
- Flat swing for slice or flat shots
- Wrist position at contact (stable vs. breaking down)

FOLLOW-THROUGH
- Full extension through the ball
- Finish position (over shoulder for forehand, across body for backhand)
- Deceleration — are they " +:+ dq +:+ "quitting" +:+ dq +:+ " on the shot early?

SERVE SPECIFIC ADDITIONS
- Toss location (in front and to the right for right-handers)
- Trophy position — elbow height and racket drop
- Leg drive and body rotation into the shot
- Pronation on contact (the " +:+ dq +:+ "door knob turn" +:+ dq +:+ ")

═══════════════════════════════════════════════════════════
OUTPUT FORMAT — always structure your response exactly like this
═══════════════════════════════════════════════════════════

## 🎾 Stroke Analysis — [Stroke Type]

### Overall Assessment
[2-3 sentences. Lead with a genuine strength before addressing corrections. 
Be specific — never say " +:+ dq +:+ "good job" +:+ dq +:+ " without saying exactly what is good.]

---

### ✅ What's Working
[2-3 specific mechanical strengths with brief explanation of WHY they're effective]

---

### 🔧 Top Priority Fix
**[Name the single most important correction]**

[Explain what you're seeing in the frames, why it's limiting the shot, 
and exactly what the correct movement looks and feels like. 
Reference the frame numbers where this is most visible.]

---

### 📋 Secondary Observations
[1-2 additional notes, clearly labeled as lower priority than the fix above]

---

### 🏋️ Recommended Drills

**Drill 1 — [Name]: [Duration/Reps]**
[Step-by-step instructions. Be specific: ball machine settings, court position, 
target zones, what the player should feel in their body]

**Drill 2 — [Name]: [Duration/Reps]**
[Step-by-step instructions]

---

### 💬 Coach's Note
[1-2 sentences of encouragement that connect to the player's specific situation. 
Reference something specific you saw in the video to make it personal.]

═══════════════════════════════════════════════════════════
TONE GUIDELINES
═══════════════════════════════════════════════════════════
- Speak like a coach, not a textbook. Use plain language.
- Be direct about problems — students are paying for honest feedback
- Connect technical corrections to real outcomes (" +:+ dq +:+ "This will add 10-15 mph 
  to your serve" +:+ dq +:+ " or " +:+ dq +:+ "This is why your backhand breaks down under pressure" +:+ dq +:+ ")
- Never use filler phrases like " +:+ dq +:+ "great effort" +:+ dq +:+ " or " +:+ dq +:+ "keep working hard" +:+ dq +:+ "
- Age-appropriate adjustments: if student info indicates juniors, simplify language

═══════════════════════════════════════════════════════════
MULTI-FRAME ANALYSIS INSTRUCTIONS
═══════════════════════════════════════════════════════════
You will receive multiple frames extracted from a video. Analyze them as a 
sequence, not individually. Look for:
- Consistency across the swing (does the technique hold up over multiple reps?)
- The moment where breakdown occurs (early in the swing? at contact? follow-through?)
- Patterns vs. one-off errors (a pattern needs a drill; a one-off may just be fatigue)

Always reference specific frames when citing a problem: 
" +:+ dq +:+ "In frames 3 and 7, you can see the elbow dropping below shoulder height..." +:+ dq +:+ "
".

Definition STROKE_forehand : string :=
  "
Focus especially on:
- Grip type (Eastern, Semi-Western, Western) and whether it matches the swing path
- Eastern players: watch for late contact and arm-dominant swings
- Western players: watch for over-rotation and loss of court depth
- The windshield wiper finish vs. abbreviated follow-through
".

Definition STROKE_backhand_one_handed : string :=
  "
Focus especially on:
- Shoulder turn is CRITICAL — one-handers require more rotation than two-handers
- Contact point must be further in front than a two-hander
- Wrist stability at contact — the most common breakdown point
- Slice vs. topspin mechanics differ significantly; identify which is being attempted
".

Definition STROKE_backhand_two_handed : string :=
  "
Focus especially on:
- Non-dominant arm driving the shot (most students rely too much on dominant arm)
- Hip clearance — hips must rotate out of the way on open-stance backhands
- Contact point height — two-handers excel at shoulder height, struggle below the knee
".

Definition STROKE_serve : string :=
  "
Focus especially on:
- Toss consistency is the #1 serve problem at all levels
- The kinetic chain: legs → hips → torso → shoulder → elbow → wrist
- Are they hitting with arm only, or using their legs?
- Second serve: look for excessive caution vs. committed swing
".

Definition STROKE_volley : string :=
  "
Focus especially on:
- Compact backswing — volleys are BLOCKS, not swings
- Continental grip — Eastern grip is the most common volley error
- Ready position and split step timing at the net
- Head stability through contact
".

Definition STROKE_general : string :=
  "
Analyze whatever strokes are most visible in the provided frames.
If multiple strokes are shown, prioritize the one with the clearest 
mechanical issue or the one most central to the student's game.
".

Definition STROKE_CONTEXT : gmap string string :=
  list_to_map
    [ ("forehand", STROKE_forehand);
      ("backhand_one_handed", STROKE_backhand_one_handed);
      ("backhand_two_handed", STROKE_backhand_two_handed);
      ("serve", STROKE_serve);
      ("volley", STROKE_volley);
      ("general", STROKE_general) ].

(** [if student_info:] on an optional dict: [None] and [{}] are both false. *)
Definition dict_truthy (o : option (gmap string pyval)) : bool :=
  match o with
  | Some d => negb (bool_decide (d = ∅))
  | None => false
  end.

Definition student_context (student_info : option (gmap string pyval)) : string :=
  match student_info with
  | Some d =>
      if dict_truthy student_info then
        let name := dict_get d "name" (VStr "the student") in
        let level := dict_get d "level" (VStr "intermediate") in
        let age := dict_get d "age" (VStr "") in
        let concerns := dict_get d "concerns" (VStr "") in
        "
STUDENT PROFILE:
- Name: " +:+ py_str name +:+ "
- Level: " +:+ py_str level +:+ "
" +:+ (if truthy age then "- Age: " +:+ py_str age else "") +:+ "
" +:+ (if truthy concerns then "- Student notes: " +:+ py_str concerns else "") +:+ "

"
      else ""
  | None => ""
  end.

(** [STROKE_CONTEXT.get(stroke_type, STROKE_CONTEXT["general"])] *)
Definition stroke_addition (stroke_type : string) : string :=
  default (STROKE_CONTEXT !!! "general") (STROKE_CONTEXT !! stroke_type).

(** The heading line's value: [stroke_type.replace('_', ' ').title()] *)
Definition stroke_heading (X : Externals) (stroke_type : string) : string :=
  str_title X (replace_char "_" " " stroke_type).

Definition build_user_prompt (X : Externals) (frames_count : Z)
    (stroke_type : string) (student_info : option (gmap string pyval))
    : string :=
  student_context student_info +:+ "I'm sending you " +:+ pretty frames_count
  +:+ " frames extracted from a tennis video.
Please analyze the stroke mechanics shown across these frames.

Stroke type: " +:+ stroke_heading X stroke_type +:+ "

" +:+ stroke_addition stroke_type +:+ "

Provide your full structured analysis following the format in your instructions.".

(** ** [analysis_pipeline.py] *)

Definition FRAMES_TO_EXTRACT : Z := 10.
Definition MAX_VIDEO_DURATION : Z := 120.
Definition CLAUDE_MODEL : string := "claude-opus-4-6".

(** *** The scratch storage *)

(** The scratch storage: the files present, by path.  A path is a string in
    the normal form of [pathlib], so that [str(Path(p))] is [p]. *)
Abbreviation filesystem := (gmap string bytes).

Definition path_exists (fs : filesystem) (p : string) : bool :=
  bool_decide (is_Some (fs !! p)).

(** *** Frame extraction *)

Definition ffprobe_cmd (video_path : string) : list string :=
  ["ffprobe"; "-v"; "quiet"; "-print_format"; "json"; "-show_format"; video_path].

Definition get_video_duration (X : Externals) (video_path : string) : result Q :=
  match run_ffprobe X (ffprobe_cmd video_path) with
  | ProbeDuration d => Ok d
  | ProbeRaises e => Err e
  end.

(** [duration / num_frames].  Over the cap [duration] is the integer 120,
    otherwise the float that was probed: the two divisions word their
    [ZeroDivisionError] differently. *)
Definition py_truediv (over_cap : bool) (duration : Q) (num_frames : Z)
    : result Q :=
  if num_frames =? 0
  then Err (Raise ZeroDivisionError
              (if over_cap then "division by zero"
               else "float division by zero"))
  else Ok (duration / inject_Z num_frames)%Q.

(** [duration > MAX_VIDEO_DURATION] *)
Definition over_cap (duration : Q) : bool :=
  if Qlt_le_dec (inject_Z MAX_VIDEO_DURATION) duration then true else false.

(** The duration after the cap of [extract_frames]. *)
Definition capped_duration (duration : Q) : Q :=
  if Qlt_le_dec (inject_Z MAX_VIDEO_DURATION) duration
  then inject_Z MAX_VIDEO_DURATION
  else duration.

Definition ffmpeg_cmd (video_path : string) (interval : Q) (num_frames : Z)
    (tmpdir : string) : list string :=
  ["ffmpeg";
   "-i"; video_path;
   "-vf"; "fps=1/" +:+ format_2f interval;
   "-q:v"; "2";
   "-vframes"; pretty num_frames;
   "-y";
   tmpdir +:+ "/frame_%03d.jpg"].

(** [Path(tmpdir).glob("frame_*.jpg")], on file names *)
Definition glob_frame (name : string) : bool :=
  is_prefix "frame_" name && is_suffix ".jpg" name
  && (10 <=? String.length name)%nat.

Definition name_le (a b : string * bytes) : Prop := String.le a.1 b.1.

#[global] Instance name_le_dec : RelDecision name_le.
Proof. intros a b. unfold name_le. apply _. Defined.

(** [sorted(Path(tmpdir).glob("frame_*.jpg"))] *)
Definition frame_files (dir : gmap string bytes) : list (string * bytes) :=
  merge_sort name_le (filter (fun f => glob_frame f.1 = true) (map_to_list dir)).

(** [extract_frames] up to the call of [subprocess.run]: the command line. *)
Definition extraction_cmd (X : Externals) (fs : filesystem)
    (video_path : string) (num_frames : Z) : result (list string) :=
  if negb (path_exists fs video_path)
  then Err (Raise FileNotFoundError ("Video not found: " +:+ video_path))
  else
    duration <- get_video_duration X video_path ;;
    let over := over_cap duration in
    let duration := capped_duration duration in
    interval <- py_truediv over duration num_frames ;;
    let tmpdir := mkdtemp X in
    Ok (ffmpeg_cmd video_path interval num_frames tmpdir).

Definition extract_frames (X : Externals) (fs : filesystem)
    (video_path : string) (num_frames : Z) : result (list string) :=
  cmd <- extraction_cmd X fs video_path num_frames ;;
  match run_ffmpeg X cmd with
  | FfmpegRaises e => Err e
  | FfmpegExit returncode stderr dir =>
      if negb (returncode =? 0)
      then Err (Raise RuntimeError ("FFmpeg failed: " +:+ stderr))
      else
        match frame_files dir with
        | [] => Err (Raise RuntimeError
                       "No frames were extracted. Check video format.")
        | files => Ok ((fun f => standard_b64encode f.2) <$> files)
        end
  end.

(** *** The call to the hosted model *)

(** [list(enumerate(l))], counting from [i] *)
Fixpoint enumerate_from {A} (i : nat) (l : list A) : list (nat * A) :=
  match l with
  | [] => []
  | x :: l' => (i, x) :: enumerate_from (S i) l'
  end.

Definition image_block (frame_b64 : string) : block :=
  ImageBlock "base64" "image/jpeg" frame_b64.

Definition frame_label (i : nat) : block :=
  TextBlock ("[Frame " +:+ pretty (Z.of_nat i + 1) +:+ "]").

(** The loop body: two [content.append] calls. *)
Definition append_frame (content : list block) (p : nat * string) : list block :=
  (content ++ [image_block p.2]) ++ [frame_label p.1].

Definition message_content (X : Externals) (frames_b64 : list string)
    (stroke_type : string) (student_info : option (gmap string pyval))
    : list block :=
  let content := fold_left append_frame (enumerate_from 0 frames_b64) [] in
  let user_prompt :=
    build_user_prompt X (Z.of_nat (length frames_b64)) stroke_type
      student_info in
  content ++ [TextBlock user_prompt].

(** [a or b] on optional strings: [None] and [""] are false. *)
Definition str_or (a b : option string) : option string :=
  match a with
  | Some s => if bool_decide (s = "") then b else a
  | None => b
  end.

Definition claude_request (X : Externals) (frames_b64 : list string)
    (stroke_type : string) (student_info : option (gmap string pyval))
    (api_key : option string) : api_request :=
  {| req_api_key := str_or api_key (environ_api_key X);
     req_model := CLAUDE_MODEL;
     req_max_tokens := 2048;
     req_system := SYSTEM_PROMPT;
     req_role := "user";
     req_content := message_content X frames_b64 stroke_type student_info |}.

Definition analyze_frames_with_claude (X : Externals) (frames_b64 : list string)
    (stroke_type : string) (student_info : option (gmap string pyval))
    (api_key : option string) : result string :=
  match claude X (claude_request X frames_b64 stroke_type student_info api_key) with
  | ApiText text => Ok text
  | ApiRaises e => Err e
  end.

(** *** The pipeline *)

Definition student_name (student_info : option (gmap string pyval)) : pyval :=
  match student_info with
  | Some d =>
      if dict_truthy student_info
      then dict_get d "name" (VStr "Student")
      else VStr "Student"
  | None => VStr "Student"
  end.

Definition success_dict (analysis : string) (frames : list string)
    (stroke_type : string) (student_info : option (gmap string pyval))
    : gmap string pyval :=
  list_to_map
    [ ("success", VBool true);
      ("analysis", VStr analysis);
      ("frames_analyzed", VInt (Z.of_nat (length frames)));
      ("stroke_type", VStr stroke_type);
      ("student_name", student_name student_info);
      ("error", VNone) ].

Definition failure_dict (error : string) : gmap string pyval :=
  list_to_map
    [ ("success", VBool false);
      ("error", VStr error);
      ("analysis", VNone) ].

Inductive category := NotFound | Processing | Remote | Unexpected.

(** Which [except] clause of [analyze_tennis_video] takes an exception. *)
Definition except_clause (c : exn_class) : category :=
  match c with
  | FileNotFoundError => NotFound
  | RuntimeError => Processing
  | APIError => Remote
  | _ => Unexpected
  end.

Definition category_prefix (c : category) : string :=
  match c with
  | NotFound => "Video file not found: "
  | Processing => "Processing error: "
  | Remote => "Claude API error: "
  | Unexpected => "Unexpected error: "
  end.

Definition handle_exception (e : exn) : gmap string pyval :=
  failure_dict (category_prefix (except_clause (exn_cls e)) +:+ exn_msg e).

Definition pipeline_steps (X : Externals) (fs : filesystem) (video_path : string)
    (stroke_type : string) (student_info : option (gmap string pyval))
    (api_key : option string) : result (gmap string pyval) :=
  frames <- extract_frames X fs video_path FRAMES_TO_EXTRACT ;;
  analysis <- analyze_frames_with_claude X frames stroke_type student_info api_key ;;
  Ok (success_dict analysis frames stroke_type student_info).

Definition analyze_tennis_video (X : Externals) (fs : filesystem)
    (video_path : string) (stroke_type : string)
    (student_info : option (gmap string pyval)) (api_key : option string)
    : gmap string pyval :=
  match pipeline_steps X fs video_path stroke_type student_info api_key with
  | Ok d => d
  | Err e => handle_exception e
  end.

(** ** [app.py] *)

Definition MAX_CONTENT_LENGTH : Z := 500 * 1024 * 1024.

Definition ALLOWED_EXTENSIONS : gset string :=
  list_to_set ["mp4"; "mov"; "avi"; "mkv"; "m4v"; "webm"].

Definition UPLOAD_FOLDER (X : Externals) : string :=
  gettempdir X +:+ "/tennis_uploads".

(** The conjunction short-circuits, so the subscript [[1]] is only taken of a
    two-element list; the [None] branch stands for its [IndexError]. *)
Definition allowed_file (X : Externals) (filename : string) : bool :=
  contains_char "." filename &&
  match rsplit1 "." filename !! 1%nat with
  | Some ext => bool_decide (str_lower X ext ∈ ALLOWED_EXTENSIONS)
  | None => false
  end.

Record request := Request {
  (** the size the client announces for the body *)
  content_length : Z;
  (** [request.files] *)
  files : gmap string upload;
  (** [request.form] *)
  form : gmap string string
}.

Record response := Response { body : gmap string pyval; status : Z }.

(** [jsonify({'success': False, 'error': msg})] *)
Definition error_body (msg : string) : gmap string pyval :=
  list_to_map [ ("success", VBool false); ("error", VStr msg) ].

(** [if request.form.get(k):] gives the value when it is there and not empty. *)
Definition form_field (form : gmap string string) (k : string) : option string :=
  match form !! k with
  | Some s => if bool_decide (s = "") then None else Some s
  | None => None
  end.

(** The four [if request.form.get(...)] statements, in order. *)
Definition form_student_info (X : Externals) (form : gmap string string)
    : gmap string pyval :=
  let student_info : gmap string pyval := ∅ in
  let student_info :=
    match form_field form "name" with
    | Some s => <["name" := VStr (str_take 50 (str_strip X s))]> student_info
    | None => student_info
    end in
  let student_info :=
    match form_field form "age" with
    | Some s =>
        match str_int X s with
        | Some z => <["age" := VInt z]> student_info
        | None => student_info
        end
    | None => student_info
    end in
  let student_info :=
    match form_field form "level" with
    | Some s => <["level" := VStr s]> student_info
    | None => student_info
    end in
  match form_field form "concerns" with
  | Some s => <["concerns" := VStr (str_take 500 (str_strip X s))]> student_info
  | None => student_info
  end.

(** [student_info if student_info else None] *)
Definition dict_or_none (d : gmap string pyval) : option (gmap string pyval) :=
  if bool_decide (d = ∅) then None else Some d.

Definition upload_path (X : Externals) (video_file : upload) : string :=
  let filename := uuid4_hex X +:+ "_" +:+ secure_filename X (up_filename video_file) in
  UPLOAD_FOLDER X +:+ "/" +:+ filename.

(** The [except Exception] clause of the handler. *)
Definition server_error (e : exn) : response :=
  Response (error_body ("Server error: " +:+ exn_msg e)) 500.

(** The body of the [try] block: the response, and the scratch storage it
    leaves to the [finally] clause. *)
Definition try_block (X : Externals) (fs : filesystem) (video_file : upload)
    (video_path stroke_type : string) (student_info : gmap string pyval)
    : response * filesystem :=
  match file_save X video_file video_path with
  | SaveRaises e partial =>
      (server_error e,
       match partial with
       | Some b => <[video_path := b]> fs
       | None => fs
       end)
  | Saved =>
      let fs := <[video_path := up_content video_file]> fs in
      let result :=
        analyze_tennis_video X fs video_path stroke_type
          (dict_or_none student_info) (environ_api_key X) in
      match result !! "success" with
      | Some v => (Response result (if truthy v then 200 else 500), fs)
      | None => (server_error (Raise KeyError "'success'"), fs)
      end
  end.

(** The [finally] clause. *)
Definition cleanup (fs : filesystem) (video_path : string) : filesystem :=
  if path_exists fs video_path then delete video_path fs else fs.

Definition analyze (X : Externals) (fs : filesystem) (req : request)
    : response * filesystem :=
  match files req !! "video" with
  | None => (Response (error_body "No video file uploaded") 400, fs)
  | Some video_file =>
      if bool_decide (up_filename video_file = "")
      then (Response (error_body "No file selected") 400, fs)
      else if negb (allowed_file X (up_filename video_file))
      then (Response
              (error_body "Unsupported file format. Please upload MP4, MOV, or AVI.")
              400, fs)
      else
        let student_info := form_student_info X (form req) in
        let stroke_type := default "general" (form req !! "stroke_type") in
        let video_path := upload_path X video_file in
        let '(resp, fs) :=
          try_block X fs video_file video_path stroke_type student_info in
        (resp, cleanup fs video_path)
  end.

(** [@app.errorhandler(413)] *)
Definition file_too_large : response :=
  Response (error_body "Video file is too large. Please keep it under 500MB.") 413.

(** [@app.errorhandler(500)]: the answer to an exception that leaves a
    handler.  [analyze] catches every exception of its [try] block, so
    no path of [post_api_analyze] comes here. *)
Definition internal_error : response :=
  Response (error_body "An unexpected server error occurred. Please try again.") 500.

(** The route [POST /api/analyze].  Flask refuses a body longer than
    [MAX_CONTENT_LENGTH] at the handler's first read of [request.files], its
    first statement, and the 413 handler answers; [analyze] above is the
    handler from that read on. *)
Definition post_api_analyze (X : Externals) (fs : filesystem) (req : request)
    : response * filesystem :=
  if MAX_CONTENT_LENGTH <? content_length req
  then (file_too_large, fs)
  else analyze X fs req.

(** ** Definitions used by the statements *)

(** The six keys of the analysis result. *)
Definition ENVELOPE_KEYS : gset string :=
  list_to_set ["success"; "analysis"; "frames_analyzed"; "stroke_type";
               "student_name"; "error"].

(** The keys of the dict an [except] clause returns. *)
Definition FAILURE_KEYS : gset string :=
  list_to_set ["success"; "error"; "analysis"].

(** The frames with their labels, numbered from [i]: what the loop of
    [analyze_frames_with_claude] has appended when it ends. *)
Fixpoint labelled_from (i : nat) (frames : list string) : list block :=
  match frames with
  | [] => []
  | f :: frames' => image_block f :: frame_label i :: labelled_from (S i) frames'
  end.

(** The upload passed the three checks of the handler. *)
Definition valid_upload (X : Externals) (req : request) (video_file : upload)
    : Prop :=
  files req !! "video" = Some video_file
  /\ up_filename video_file <> ""
  /\ allowed_file X (up_filename video_file) = true.

(** *** Sample worlds *)

Definition two_frames : gmap string bytes :=
  list_to_map [ ("frame_002.jpg", [Byte.x4d; Byte.x61]);
                ("frame_001.jpg", [Byte.x4d]);
                ("ffmpeg.log", []) ].

(** A 30 second video, two frames, a model that answers, and the string
    methods for ASCII text. *)
Definition demo_world : Externals :=
  {| run_ffprobe := fun _ => ProbeDuration 30;
     run_ffmpeg := fun _ => FfmpegExit 0 "" two_frames;
     mkdtemp := "/tmp/tmpk3v9";
     gettempdir := "/tmp";
     environ_api_key := Some "sk-demo";
     claude := fun _ => ApiText "Nice swing";
     uuid4_hex := "0123456789abcdef0123456789abcdef";
     secure_filename := fun s => s;
     file_save := fun _ _ => Saved;
     str_lower := ascii_lower;
     str_title := ascii_title;
     str_strip := ascii_strip;
     str_int := ascii_int |}.

Definition with_ffprobe (p : probe_outcome) (X : Externals) : Externals :=
  {| run_ffprobe := fun _ => p;
     run_ffmpeg := run_ffmpeg X; mkdtemp := mkdtemp X;
     gettempdir := gettempdir X; environ_api_key := environ_api_key X;
     claude := claude X; uuid4_hex := uuid4_hex X;
     secure_filename := secure_filename X; file_save := file_save X;
     str_lower := str_lower X; str_title := str_title X;
     str_strip := str_strip X; str_int := str_int X |}.

Definition with_ffmpeg (f : list string -> ffmpeg_outcome) (X : Externals)
    : Externals :=
  {| run_ffprobe := run_ffprobe X;
     run_ffmpeg := f; mkdtemp := mkdtemp X;
     gettempdir := gettempdir X; environ_api_key := environ_api_key X;
     claude := claude X; uuid4_hex := uuid4_hex X;
     secure_filename := secure_filename X; file_save := file_save X;
     str_lower := str_lower X; str_title := str_title X;
     str_strip := str_strip X; str_int := str_int X |}.

Definition with_claude (f : api_request -> api_outcome) (X : Externals)
    : Externals :=
  {| run_ffprobe := run_ffprobe X;
     run_ffmpeg := run_ffmpeg X; mkdtemp := mkdtemp X;
     gettempdir := gettempdir X; environ_api_key := environ_api_key X;
     claude := f; uuid4_hex := uuid4_hex X;
     secure_filename := secure_filename X; file_save := file_save X;
     str_lower := str_lower X; str_title := str_title X;
     str_strip := str_strip X; str_int := str_int X |}.

Definition with_file_save (o : save_outcome) (X : Externals) : Externals :=
  {| run_ffprobe := run_ffprobe X;
     run_ffmpeg := run_ffmpeg X; mkdtemp := mkdtemp X;
     gettempdir := gettempdir X; environ_api_key := environ_api_key X;
     claude := claude X; uuid4_hex := uuid4_hex X;
     secure_filename := secure_filename X; file_save := fun _ _ => o;
     str_lower := str_lower X; str_title := str_title X;
     str_strip := str_strip X; str_int := str_int X |}.

(** An [ffmpeg] that fails and reports its own command line. *)
Definition echo_ffmpeg (cmd : list string) : ffmpeg_outcome :=
  FfmpegExit 1 (foldr (fun a s => a +:+ " " +:+ s) "" cmd) ∅.

(** A scratch directory that holds one video. *)
Definition one_video : filesystem := {[ "/uploads/v.mp4" := [Byte.x00] ]}.

Definition demo_request (filename : string) : request :=
  {| content_length := 1000;
     files := {[ "video" := Upload filename [Byte.x00; Byte.x01] ]};
     form := {[ "stroke_type" := "forehand" ]} |}.

(** The six stroke types [STROKE_CONTEXT] is keyed by. *)
Definition KNOWN_STROKES : list string :=
  ["forehand"; "backhand_one_handed"; "backhand_two_handed"; "serve";
   "volley"; "general"].

(** ** The rest of the two modules *)

(** [bool(s)] for an optional string: [None] and [""] are false. *)
Definition str_truthy (o : option string) : bool :=
  match o with
  | Some s => negb (bool_decide (s = ""))
  | None => false
  end.

(** The body of [GET /api/health]. *)
Definition health (X : Externals) : gmap string pyval :=
  list_to_map
    [ ("status", VStr "ok");
      ("api_key_set", VBool (str_truthy (environ_api_key X)));
      ("upload_dir", VStr (UPLOAD_FOLDER X)) ].

(** The files of a directory that [frame_*.jpg] matches, in no order. *)
Definition matching_files (dir : gmap string bytes) : list (string * bytes) :=
  filter (fun f => glob_frame f.1 = true) (map_to_list dir).

(** * Properties *)

(** Membership in a list given by its elements, and its refutation. *)
Ltac elem_of_list :=
  repeat first [apply list_elem_of_here | apply list_elem_of_further].

Ltac not_elem_of_list H :=
  repeat (apply elem_of_cons in H as [H|H]; [discriminate H|]);
  by apply elem_of_nil in H.

(** ** Strings *)

Lemma rsplit1_no_sep a s :
  contains_char a s = false -> rsplit1 a s = [s].
Proof.
  induction s as [|c s IH]; simpl; [done|].
  intros [Hc Hs]%orb_false_iff. rewrite (IH Hs), Hc. done.
Qed.

Lemma rsplit1_sep a s :
  contains_char a s = true ->
  exists pre ext, rsplit1 a s = [pre; ext]
    /\ s = pre +:+ String a ext /\ contains_char a ext = false.
Proof.
  induction s as [|c s IH]; simpl; [done|].
  destruct (contains_char a s) eqn:Hs.
  - intros _. destruct (IH eq_refl) as (pre & ext & -> & -> & Hext).
    exists (String c pre), ext. done.
  - rewrite orb_false_r. intros Hc. rewrite (rsplit1_no_sep _ _ Hs), Hc.
    apply bool_decide_eq_true in Hc as ->.
    exists "", s. done.
Qed.

Lemma contains_char_app a s t :
  contains_char a (s +:+ t) = contains_char a s || contains_char a t.
Proof.
  induction s as [|c s IH]; simpl; [done|]. by rewrite IH, orb_assoc.
Qed.

Lemma rsplit1_app a pre ext :
  contains_char a ext = false ->
  rsplit1 a (pre +:+ String a ext) = [pre; ext].
Proof.
  intros Hext. induction pre as [|c pre IH]; simpl.
  - rewrite (rsplit1_no_sep _ _ Hext). by rewrite bool_decide_eq_true_2.
  - by rewrite IH.
Qed.

Lemma elem_of_ALLOWED_EXTENSIONS x :
  x ∈ ALLOWED_EXTENSIONS <-> x ∈ ["mp4"; "mov"; "avi"; "mkv"; "m4v"; "webm"].
Proof. unfold ALLOWED_EXTENSIONS. by rewrite elem_of_list_to_set. Qed.

(** C10. [allowed_file] accepts exactly the names that have a dot and whose
    part after the last dot (the [ext] below, which has no dot itself)
    lowercases to one of mp4, mov, avi, mkv, m4v, webm, whatever [str.lower]
    does to other texts; it accepts CLIP.MP4, whose extension lowercases to
    mp4, and rejects the dotless name video. *)
Theorem C10_allowed_file (X : Externals) :
  (forall filename,
     allowed_file X filename = true <->
     contains_char "." filename = true /\
     exists pre ext,
       filename = pre +:+ "." +:+ ext /\ contains_char "." ext = false /\
       str_lower X ext ∈ ["mp4"; "mov"; "avi"; "mkv"; "m4v"; "webm"])
  /\ (str_lower X "MP4" = "mp4" -> allowed_file X "CLIP.MP4" = true)
  /\ allowed_file X "video" = false.
Proof.
  split; [|split; [|done]].
  - intros filename. unfold allowed_file. split.
    + intros [Hdot Hext]%andb_true_iff. split; [done|].
      destruct (rsplit1_sep _ _ Hdot) as (pre & ext & Hsplit & -> & Hno).
      rewrite Hsplit in Hext. simpl in Hext.
      apply bool_decide_eq_true, elem_of_ALLOWED_EXTENSIONS in Hext.
      by exists pre, ext.
    + intros (Hdot & pre & ext & -> & Hno & Hin).
      rewrite Hdot. simpl. change ("." +:+ ext) with (String "." ext).
      rewrite (rsplit1_app _ _ _ Hno). simpl.
      by apply bool_decide_eq_true, elem_of_ALLOWED_EXTENSIONS.
  - intros Hlower. unfold allowed_file. simpl. rewrite Hlower. done.
Qed.

Lemma C10_allowed_file_witness :
  allowed_file demo_world "CLIP.MP4" = true
  /\ exists pre ext,
       "Serve.final.MoV" = pre +:+ "." +:+ ext /\ contains_char "." ext = false /\
       str_lower demo_world ext ∈ ["mp4"; "mov"; "avi"; "mkv"; "m4v"; "webm"].
Proof.
  split.
  - exact (proj1 (proj2 (C10_allowed_file demo_world)) eq_refl).
  - exact (proj2 (proj1 (proj1 (C10_allowed_file demo_world) "Serve.final.MoV")
                    eq_refl)).
Defined.

(** ** The message content *)

Lemma fold_append_frame frames : forall i acc,
  fold_left append_frame (enumerate_from i frames) acc
  = acc ++ labelled_from i frames.
Proof.
  induction frames as [|f frames IH]; intros i acc; simpl.
  - by rewrite app_nil_r.
  - rewrite IH. unfold append_frame. simpl. by rewrite <- !app_assoc.
Qed.

Lemma length_labelled_from frames : forall i,
  length (labelled_from i frames) = (2 * length frames)%nat.
Proof. induction frames as [|f frames IH]; intros i; simpl; [done|]. rewrite IH. lia. Qed.

Lemma lookup_labelled_from frames : forall i k f,
  frames !! k = Some f ->
  labelled_from i frames !! (2 * k)%nat = Some (image_block f)
  /\ labelled_from i frames !! (2 * k + 1)%nat = Some (frame_label (i + k)).
Proof.
  induction frames as [|f0 frames IH]; intros i k f Hk; [done|].
  destruct k as [|k]; simpl in Hk.
  - injection Hk as ->. simpl. by rewrite Nat.add_0_r.
  - replace (2 * S k)%nat with (S (S (2 * k))) by lia. simpl.
    destruct (IH (S i) k f Hk) as [H1 H2].
    replace (i + S k)%nat with (S i + k)%nat by lia. split; [done|].
    replace (k + S (k + 0) + 1)%nat with (S (2 * k + 1)) by lia. done.
Qed.

Lemma message_content_eq X frames stroke_type student_info :
  message_content X frames stroke_type student_info
  = labelled_from 0 frames
    ++ [TextBlock (build_user_prompt X (Z.of_nat (length frames)) stroke_type
                     student_info)].
Proof. unfold message_content. by rewrite fold_append_frame. Qed.

(** C7. The content of the message sent to the model, for a list of [n]
    frames, has exactly [2n+1] blocks: at positions [2k] and [2k+1] (counting
    from 0) the image block holding the frame of index [k] and the text block
    "[Frame k+1]", and last a single text block holding the user prompt. *)
Theorem C7_message_content (X : Externals) (frames : list string)
    (stroke_type : string) (student_info : option (gmap string pyval))
    (api_key : option string) :
  let n := length frames in
  let content :=
    req_content (claude_request X frames stroke_type student_info api_key) in
  length content = (2 * n + 1)%nat
  /\ (forall k f, frames !! k = Some f ->
        content !! (2 * k)%nat = Some (ImageBlock "base64" "image/jpeg" f)
        /\ content !! (2 * k + 1)%nat
           = Some (TextBlock ("[Frame " +:+ pretty (Z.of_nat k + 1) +:+ "]")))
  /\ content !! (2 * n)%nat
     = Some (TextBlock (build_user_prompt X (Z.of_nat n) stroke_type student_info)).
Proof.
  intros n content. subst content n. unfold claude_request.
  cbn [req_content]. rewrite message_content_eq.
  split; [|split].
  - rewrite length_app, length_labelled_from. simpl. lia.
  - intros k f Hk.
    destruct (lookup_labelled_from frames 0 k f Hk) as [H1 H2].
    rewrite !lookup_app_l
      by (rewrite length_labelled_from; apply lookup_lt_Some in Hk; lia).
    split; [done|]. by rewrite H2.
  - rewrite lookup_app_r by (rewrite length_labelled_from; done).
    rewrite length_labelled_from. by rewrite Nat.sub_diag.
Qed.

Lemma C7_message_content_witness :
  let X := {| run_ffprobe := fun _ => ProbeDuration 30;
              run_ffmpeg := fun _ => FfmpegExit 0 "" ∅;
              mkdtemp := "/tmp/tmpq1"; gettempdir := "/tmp";
              environ_api_key := None;
              claude := fun _ => ApiText "ok";
              uuid4_hex := "00"; secure_filename := fun s => s;
              file_save := fun _ _ => Saved;
              str_lower := ascii_lower; str_title := ascii_title;
              str_strip := ascii_strip; str_int := ascii_int |} in
  let content := req_content (claude_request X ["QUFB"; "QkJC"] "serve" None None) in
  content !! 2%nat = Some (ImageBlock "base64" "image/jpeg" "QkJC")
  /\ content !! 3%nat = Some (TextBlock "[Frame 2]").
Proof.
  intros X content.
  exact (proj1 (proj2 (C7_message_content X ["QUFB"; "QkJC"] "serve" None None))
           1%nat "QkJC" eq_refl).
Defined.

(** ** The shape of the analysis result *)

Lemma pipeline_steps_Ok X fs video_path stroke_type student_info api_key d :
  pipeline_steps X fs video_path stroke_type student_info api_key = Ok d ->
  exists analysis frames,
    extract_frames X fs video_path FRAMES_TO_EXTRACT = Ok frames
    /\ analyze_frames_with_claude X frames stroke_type student_info api_key
       = Ok analysis
    /\ d = success_dict analysis frames stroke_type student_info.
Proof.
  unfold pipeline_steps.
  destruct (extract_frames _ _ _ _) as [frames|e] eqn:Hf; simpl; [|done].
  destruct (analyze_frames_with_claude _ _ _ _ _) as [analysis|e] eqn:Ha;
    simpl; [|done].
  intros [= <-]. by exists analysis, frames.
Qed.

Lemma success_dict_lookups analysis frames stroke_type student_info :
  let d := success_dict analysis frames stroke_type student_info in
  d !! "success" = Some (VBool true)
  /\ d !! "analysis" = Some (VStr analysis)
  /\ d !! "frames_analyzed" = Some (VInt (Z.of_nat (length frames)))
  /\ d !! "stroke_type" = Some (VStr stroke_type)
  /\ d !! "student_name" = Some (student_name student_info)
  /\ d !! "error" = Some VNone
  /\ dom d = ENVELOPE_KEYS.
Proof. repeat split; try reflexivity. Qed.

Lemma failure_dict_lookups error :
  let d := failure_dict error in
  d !! "success" = Some (VBool false)
  /\ d !! "error" = Some (VStr error)
  /\ d !! "analysis" = Some VNone
  /\ d !! "frames_analyzed" = None
  /\ d !! "stroke_type" = None
  /\ d !! "student_name" = None
  /\ dom d = FAILURE_KEYS.
Proof. repeat split; try reflexivity. Qed.

Lemma analyze_tennis_video_Ok X fs video_path stroke_type student_info api_key
    frames analysis :
  extract_frames X fs video_path FRAMES_TO_EXTRACT = Ok frames ->
  analyze_frames_with_claude X frames stroke_type student_info api_key
  = Ok analysis ->
  analyze_tennis_video X fs video_path stroke_type student_info api_key
  = success_dict analysis frames stroke_type student_info.
Proof.
  intros Hf Ha. unfold analyze_tennis_video, pipeline_steps.
  rewrite Hf. simpl. by rewrite Ha.
Qed.

Lemma analyze_tennis_video_extract_Err X fs video_path stroke_type student_info
    api_key e :
  extract_frames X fs video_path FRAMES_TO_EXTRACT = Err e ->
  analyze_tennis_video X fs video_path stroke_type student_info api_key
  = handle_exception e.
Proof.
  intros Hf. unfold analyze_tennis_video, pipeline_steps. by rewrite Hf.
Qed.

Lemma analyze_tennis_video_cases X fs video_path stroke_type student_info api_key :
  let d := analyze_tennis_video X fs video_path stroke_type student_info api_key in
  (exists analysis frames,
     d = success_dict analysis frames stroke_type student_info)
  \/ (exists e, d = handle_exception e).
Proof.
  intros d. subst d. unfold analyze_tennis_video.
  destruct (pipeline_steps _ _ _ _ _ _) as [d|e] eqn:Hp.
  - left. apply pipeline_steps_Ok in Hp as (analysis & frames & _ & _ & ->).
    by exists analysis, frames.
  - right. by exists e.
Qed.

Lemma success_flag_cases X fs video_path stroke_type student_info api_key :
  let d := analyze_tennis_video X fs video_path stroke_type student_info api_key in
  d !! "success" = Some (VBool true) \/ d !! "success" = Some (VBool false).
Proof.
  intros d.
  destruct (analyze_tennis_video_cases X fs video_path stroke_type student_info
              api_key) as [(analysis & frames & Hd)|(e & Hd)];
    fold d in Hd; rewrite Hd.
  - left. apply success_dict_lookups.
  - right. apply failure_dict_lookups.
Qed.

(** The two shapes of the dict [analyze_tennis_video] returns.  On success:
    the six keys, [success] true, [analysis] a text, [error] null.  On
    failure: the keys [success], [error] and [analysis], [success] false,
    [error] a text, [analysis] null.  Exactly one of [analysis] and [error]
    is non-null, in keeping with [success]. *)
Lemma analyze_tennis_video_shape (X : Externals) (fs : filesystem)
    (video_path stroke_type : string)
    (student_info : option (gmap string pyval)) (api_key : option string) :
  let d := analyze_tennis_video X fs video_path stroke_type student_info api_key in
  (dom d = ENVELOPE_KEYS
   /\ d !! "success" = Some (VBool true)
   /\ (exists text, d !! "analysis" = Some (VStr text))
   /\ d !! "error" = Some VNone)
  \/ (dom d = FAILURE_KEYS
      /\ d !! "success" = Some (VBool false)
      /\ (exists text, d !! "error" = Some (VStr text))
      /\ d !! "analysis" = Some VNone).
Proof.
  intros d.
  destruct (analyze_tennis_video_cases X fs video_path stroke_type student_info
              api_key) as [(analysis & frames & Hd)|(e & Hd)];
    fold d in Hd; rewrite Hd.
  - left.
    destruct (success_dict_lookups analysis frames stroke_type student_info)
      as (Hs & Ha & _ & _ & _ & He & Hdom).
    eauto 10.
  - right. unfold handle_exception.
    destruct (failure_dict_lookups
                (category_prefix (except_clause (exn_cls e)) +:+ exn_msg e))
      as (Hs & He & Ha & _ & _ & _ & Hdom).
    eauto 10.
Qed.

(** C1. The code at a failing input.  The docstring of
    [analyze_tennis_video] lists six keys for the dict it returns; the dict
    returned for a video that is not there holds three of them, and
    [frames_analyzed], [stroke_type] and [student_name] are missing. *)
Lemma C1_failure_drops_keys :
  let d := analyze_tennis_video demo_world ∅ "/uploads/v.mp4" "forehand" None None in
  d = failure_dict "Video file not found: Video not found: /uploads/v.mp4"
  /\ d !! "frames_analyzed" = None
  /\ d !! "stroke_type" = None
  /\ d !! "student_name" = None
  /\ dom d <> ENVELOPE_KEYS.
Proof.
  intros d. repeat split; try reflexivity.
  intros Hdom.
  assert ("stroke_type" ∈ dom d) as Hin by (rewrite Hdom; by vm_compute).
  apply elem_of_dom in Hin as [v Hv]. by vm_compute in Hv.
Qed.

(** C9. A successful run for which no name was supplied ([student_info] is
    [None], or a dict without the key [name]) returns [student_name] equal to
    the placeholder "Student". *)
Theorem C9_student_name_default (X : Externals) (fs : filesystem)
    (video_path stroke_type : string)
    (student_info : option (gmap string pyval)) (api_key : option string) :
  let d := analyze_tennis_video X fs video_path stroke_type student_info api_key in
  d !! "success" = Some (VBool true) ->
  (student_info = None
   \/ exists m, student_info = Some m /\ m !! "name" = None) ->
  d !! "student_name" = Some (VStr "Student").
Proof.
  intros d Hsucc Hname.
  destruct (analyze_tennis_video_cases X fs video_path stroke_type student_info
              api_key) as [(analysis & frames & Hd)|(e & Hd)];
    fold d in Hd; rewrite Hd in *.
  - destruct (success_dict_lookups analysis frames stroke_type student_info)
      as (_ & _ & _ & _ & -> & _). f_equal.
    destruct Hname as [->|(m & -> & Hm)]; [done|].
    unfold student_name, dict_get. rewrite Hm. simpl. by case_match.
  - unfold handle_exception in Hsucc.
    by rewrite (proj1 (failure_dict_lookups _)) in Hsucc.
Qed.

Lemma C9_student_name_default_witness :
  analyze_tennis_video demo_world one_video "/uploads/v.mp4" "forehand"
    (Some {[ "level" := VStr "beginner" ]}) None
  !! "student_name" = Some (VStr "Student").
Proof.
  apply (C9_student_name_default demo_world one_video "/uploads/v.mp4" "forehand"
           (Some {[ "level" := VStr "beginner" ]}) None).
  - reflexivity.
  - right. eexists. split; [reflexivity|reflexivity].
Defined.

(** ** Failures of the frame extraction *)

Lemma extraction_cmd_missing X fs video_path num_frames :
  path_exists fs video_path = false ->
  extraction_cmd X fs video_path num_frames
  = Err (Raise FileNotFoundError ("Video not found: " +:+ video_path)).
Proof. intros H. unfold extraction_cmd. by rewrite H. Qed.

Lemma extraction_cmd_probe_raises X fs video_path num_frames e :
  path_exists fs video_path = true ->
  run_ffprobe X (ffprobe_cmd video_path) = ProbeRaises e ->
  extraction_cmd X fs video_path num_frames = Err e.
Proof.
  intros H Hp. unfold extraction_cmd, get_video_duration. by rewrite H, Hp.
Qed.

Lemma extraction_cmd_Ok X fs video_path num_frames duration :
  path_exists fs video_path = true ->
  run_ffprobe X (ffprobe_cmd video_path) = ProbeDuration duration ->
  num_frames <> 0 ->
  extraction_cmd X fs video_path num_frames
  = Ok (ffmpeg_cmd video_path
          (capped_duration duration / inject_Z num_frames)
          num_frames (mkdtemp X)).
Proof.
  intros H Hp Hn. unfold extraction_cmd, get_video_duration, py_truediv.
  rewrite H, Hp. simpl.
  by destruct (Z.eqb_spec num_frames 0).
Qed.

Lemma extract_frames_cmd_Err X fs video_path num_frames e :
  extraction_cmd X fs video_path num_frames = Err e ->
  extract_frames X fs video_path num_frames = Err e.
Proof. intros H. unfold extract_frames. by rewrite H. Qed.

(** C3, as the code has it.  A missing source path gives the not-found
    message; a probe whose output cannot be decoded (the JSON, key, type and
    value errors of [get_video_duration]) gives the message of the catch-all
    clause, "Unexpected error: ..."; a non-zero exit of ffmpeg and an empty
    set of frames give the processing-error message.  Each result is a
    failure dict, whose [success] is false. *)
Theorem C3_extraction_failures (X : Externals) (fs : filesystem)
    (video_path stroke_type : string)
    (student_info : option (gmap string pyval)) (api_key : option string) :
  let d := analyze_tennis_video X fs video_path stroke_type student_info api_key in
  (path_exists fs video_path = false ->
   d = failure_dict ("Video file not found: Video not found: " +:+ video_path))
  /\ (forall e,
        path_exists fs video_path = true ->
        run_ffprobe X (ffprobe_cmd video_path) = ProbeRaises e ->
        exn_cls e ∈ [JSONDecodeError; KeyError; TypeError; ValueError] ->
        d = failure_dict ("Unexpected error: " +:+ exn_msg e))
  /\ (forall duration returncode stderr dir,
        path_exists fs video_path = true ->
        run_ffprobe X (ffprobe_cmd video_path) = ProbeDuration duration ->
        run_ffmpeg X
          (ffmpeg_cmd video_path
             (capped_duration duration / inject_Z FRAMES_TO_EXTRACT)
             FRAMES_TO_EXTRACT (mkdtemp X))
        = FfmpegExit returncode stderr dir ->
        (returncode <> 0 ->
         d = failure_dict ("Processing error: FFmpeg failed: " +:+ stderr))
        /\ (returncode = 0 -> frame_files dir = [] ->
            d = failure_dict
                  "Processing error: No frames were extracted. Check video format."))
  /\ (forall msg, failure_dict msg !! "success" = Some (VBool false)).
Proof.
  intros d. subst d.
  split; [|split; [|split; [|done]]];
    [|
     |intros duration returncode stderr dir H Hp Hrun;
      assert (extraction_cmd X fs video_path FRAMES_TO_EXTRACT
              = Ok (ffmpeg_cmd video_path
                      (capped_duration duration / inject_Z FRAMES_TO_EXTRACT)
                      FRAMES_TO_EXTRACT (mkdtemp X))) as Hcmd
        by (by apply extraction_cmd_Ok);
      split].
  - intros H.
    by rewrite (analyze_tennis_video_extract_Err _ _ _ _ _ _ _
                  (extract_frames_cmd_Err _ _ _ _ _
                     (extraction_cmd_missing X fs video_path _ H))).
  - intros e H Hp Hcls.
    rewrite (analyze_tennis_video_extract_Err _ _ _ _ _ _ _
               (extract_frames_cmd_Err _ _ _ _ _
                  (extraction_cmd_probe_raises X fs video_path _ e H Hp))).
    unfold handle_exception. destruct e as [cls msg]. simpl in *.
    repeat (apply elem_of_cons in Hcls as [->|Hcls]; [done|]).
    by apply elem_of_nil in Hcls.
  - intros Hrc.
    rewrite (analyze_tennis_video_extract_Err _ _ _ _ _ _
               (Raise RuntimeError ("FFmpeg failed: " +:+ stderr))); [done|].
    unfold extract_frames. rewrite Hcmd. simpl. rewrite Hrun.
    by destruct (Z.eqb_spec returncode 0).
  - intros -> Hnone.
    rewrite (analyze_tennis_video_extract_Err _ _ _ _ _ _
               (Raise RuntimeError
                  "No frames were extracted. Check video format.")); [done|].
    unfold extract_frames. rewrite Hcmd. simpl. rewrite Hrun. simpl.
    by rewrite Hnone.
Qed.

Lemma C3_extraction_failures_witness :
  let run X fs := analyze_tennis_video X fs "/uploads/v.mp4" "serve" None None in
  run demo_world ∅
  = failure_dict "Video file not found: Video not found: /uploads/v.mp4"
  /\ run (with_ffprobe (ProbeRaises (Raise JSONDecodeError
                                       "Expecting value: line 1 column 1 (char 0)"))
            demo_world) one_video
     = failure_dict "Unexpected error: Expecting value: line 1 column 1 (char 0)"
  /\ run (with_ffmpeg (fun _ => FfmpegExit 1 "Invalid data found" ∅) demo_world)
       one_video
     = failure_dict "Processing error: FFmpeg failed: Invalid data found"
  /\ run (with_ffmpeg (fun _ => FfmpegExit 0 "" ∅) demo_world) one_video
     = failure_dict "Processing error: No frames were extracted. Check video format.".
Proof.
  intros run. split; [|split; [|split]].
  - refine (proj1 (C3_extraction_failures demo_world ∅ "/uploads/v.mp4" "serve"
                     None None) _).
    reflexivity.
  - refine (proj1 (proj2 (C3_extraction_failures _ one_video "/uploads/v.mp4"
                            "serve" None None)) (Raise _ _) _ _ _).
    + reflexivity.
    + reflexivity.
    + simpl. elem_of_list.
  - refine (proj1 (proj1 (proj2 (proj2 (C3_extraction_failures _ one_video
              "/uploads/v.mp4" "serve" None None))) 30%Q 1 _ ∅ _ _ _) _).
    + reflexivity.
    + reflexivity.
    + reflexivity.
    + discriminate.
  - refine (proj2 (proj1 (proj2 (proj2 (C3_extraction_failures _ one_video
              "/uploads/v.mp4" "serve" None None))) 30%Q 0 _ ∅ _ _ _) _ _).
    + reflexivity.
    + reflexivity.
    + reflexivity.
    + reflexivity.
    + reflexivity.
Defined.

(** C3, as the claim has it, fails for the probe: when ffprobe cannot read
    the file its JSON has no [format] key, [get_video_duration] raises
    [KeyError], and the message is not a processing-error one. *)
Lemma C3_counterexample :
  let X := with_ffprobe (ProbeRaises (Raise KeyError "'format'")) demo_world in
  let d := analyze_tennis_video X one_video "/uploads/v.mp4" "general" None None in
  path_exists one_video "/uploads/v.mp4" = true
  /\ d !! "success" = Some (VBool false)
  /\ d !! "error" = Some (VStr "Unexpected error: 'format'")
  /\ forall msg, d !! "error" <> Some (VStr (category_prefix Processing +:+ msg)).
Proof.
  intros X d. repeat split; try reflexivity.
  intros msg H. vm_compute in H. discriminate H.
Qed.

(** ** The sampling interval *)





(** ** Stroke types outside the table *)

Lemma str_app_assoc (a b c : string) : (a +:+ b) +:+ c = a +:+ b +:+ c.
Proof.
  induction a as [|x a IH]; [done|].
  change (String x ((a +:+ b) +:+ c) = String x (a +:+ b +:+ c)).
  by rewrite IH.
Qed.

Lemma not_known_stroke s :
  s ∉ KNOWN_STROKES <-> STROKE_CONTEXT !! s = None.
Proof.
  unfold KNOWN_STROKES, STROKE_CONTEXT. rewrite <- not_elem_of_list_to_map.
  simpl. done.
Qed.

Lemma stroke_addition_unknown s :
  STROKE_CONTEXT !! s = None -> stroke_addition s = STROKE_general.
Proof. intros H. unfold stroke_addition. by rewrite H. Qed.

Lemma stroke_addition_general : stroke_addition "general" = STROKE_general.
Proof. reflexivity. Qed.

Lemma success_dict_without_stroke analysis frames s1 s2 student_info :
  delete "stroke_type" (success_dict analysis frames s1 student_info)
  = delete "stroke_type" (success_dict analysis frames s2 student_info).
Proof. reflexivity. Qed.

(** C2, as the code has it.  For a stroke type outside the table the
    stroke-specific fragment is the one of "general".  The prompt is the
    prompt of a "general" run but for its "Stroke type:" line, which shows
    what [str.title] makes of the given stroke type (underscores replaced by
    spaces) in place of what it makes of "general"; and when the model
    answers the two prompts alike, the result is the result of the "general"
    run except that [stroke_type], where present, holds the given stroke
    type. *)
Theorem C2_unknown_stroke (X : Externals) (fs : filesystem)
    (video_path stroke_type : string)
    (student_info : option (gmap string pyval)) (api_key : option string) :
  stroke_type ∉ KNOWN_STROKES ->
  let run s := analyze_tennis_video X fs video_path s student_info api_key in
  stroke_addition stroke_type = stroke_addition "general"
  /\ (forall n, exists pre post,
        build_user_prompt X n stroke_type student_info
        = pre +:+ stroke_heading X stroke_type +:+ post
        /\ build_user_prompt X n "general" student_info
           = pre +:+ stroke_heading X "general" +:+ post)
  /\ ((forall frames,
         claude X (claude_request X frames stroke_type student_info api_key)
         = claude X (claude_request X frames "general" student_info api_key)) ->
      delete "stroke_type" (run stroke_type) = delete "stroke_type" (run "general")
      /\ (run stroke_type !! "stroke_type" = Some (VStr stroke_type)
          \/ run stroke_type = run "general")).
Proof.
  intros Hs%not_known_stroke run.
  pose proof (stroke_addition_unknown _ Hs) as Hadd.
  split; [by rewrite Hadd|]. split.
  - intros n.
    exists (student_context student_info +:+ "I'm sending you " +:+ pretty n
            +:+ " frames extracted from a tennis video.
Please analyze the stroke mechanics shown across these frames.

Stroke type: "),
      ("

" +:+ STROKE_general +:+ "

Provide your full structured analysis following the format in your instructions.").
    unfold build_user_prompt. rewrite Hadd, stroke_addition_general.
    rewrite !str_app_assoc. done.
  - intros Hclaude. subst run. cbn beta.
    unfold analyze_tennis_video, pipeline_steps.
    destruct (extract_frames X fs video_path FRAMES_TO_EXTRACT)
      as [frames|e]; simpl; [|by auto].
    unfold analyze_frames_with_claude. rewrite Hclaude.
    destruct (claude X _) as [text|e]; simpl; [|by auto].
    split; [apply success_dict_without_stroke|by left].
Qed.

Lemma C2_unknown_stroke_witness :
  let run s := analyze_tennis_video demo_world one_video "/uploads/v.mp4" s None None in
  stroke_addition "lob" = stroke_addition "general"
  /\ delete "stroke_type" (run "lob") = delete "stroke_type" (run "general").
Proof.
  intros run.
  assert ("lob" ∉ KNOWN_STROKES) as Hlob.
  { intros H. unfold KNOWN_STROKES in H. not_elem_of_list H. }
  pose proof (C2_unknown_stroke demo_world one_video "/uploads/v.mp4" "lob"
                None None Hlob) as (Hadd & _ & Henv).
  split; [exact Hadd|].
  exact (proj1 (Henv (fun _ => eq_refl))).
Defined.

(** C2, as the claim has it, fails: the prompt names the stroke type that was
    given, and the result echoes it. *)
Lemma C2_counterexample :
  let run s := analyze_tennis_video demo_world one_video "/uploads/v.mp4" s None None in
  ("lob" ∉ KNOWN_STROKES)
  /\ build_user_prompt demo_world 2 "lob" None
     <> build_user_prompt demo_world 2 "general" None
  /\ run "lob" !! "stroke_type" = Some (VStr "lob")
  /\ run "general" !! "stroke_type" = Some (VStr "general")
  /\ run "lob" <> run "general".
Proof.
  intros run. split; [|split; [|split; [|split]]].
  - intros H. unfold KNOWN_STROKES in H. not_elem_of_list H.
  - intros H. apply (f_equal (fun s => is_prefix "I'm sending you 2 frames extracted from a tennis video.
Please analyze the stroke mechanics shown across these frames.

Stroke type: Lob" s)) in H. vm_compute in H. discriminate H.
  - reflexivity.
  - reflexivity.
  - intros H. apply (f_equal (fun d => d !! "stroke_type")) in H.
    vm_compute in H. discriminate H.
Qed.

(** ** The upload handler *)

Lemma cleanup_delete (fs : filesystem) video_path :
  cleanup fs video_path = delete video_path fs.
Proof.
  unfold cleanup, path_exists. case_bool_decide as Hex; [done|].
  symmetry. apply delete_id. by apply eq_None_not_Some.
Qed.

Lemma analyze_valid X fs req video_file :
  valid_upload X req video_file ->
  analyze X fs req
  = let video_path := upload_path X video_file in
    let '(resp, fs') :=
      try_block X fs video_file video_path
        (default "general" (form req !! "stroke_type"))
        (form_student_info X (form req)) in
    (resp, cleanup fs' video_path).
Proof.
  intros (Hfile & Hname & Hext). unfold analyze. rewrite Hfile.
  rewrite bool_decide_eq_false_2 by done. by rewrite Hext.
Qed.

(** What the [try] block leaves in the scratch storage: nothing but the
    upload, whole or partial, or nothing new. *)
Lemma try_block_storage X fs video_file video_path stroke_type student_info :
  delete video_path
    (try_block X fs video_file video_path stroke_type student_info).2
  = delete video_path fs.
Proof.
  unfold try_block.
  destruct (file_save X video_file video_path) as [|e [b|]]; simpl.
  - destruct (analyze_tennis_video _ _ _ _ _ _ !! "success"); simpl;
      apply delete_insert_eq.
  - apply delete_insert_eq.
  - done.
Qed.

Lemma analyze_no_field X fs req :
  files req !! "video" = None ->
  analyze X fs req = (Response (error_body "No video file uploaded") 400, fs).
Proof. intros Hfile. unfold analyze. by rewrite Hfile. Qed.

Lemma analyze_no_filename X fs req video_file :
  files req !! "video" = Some video_file ->
  up_filename video_file = "" ->
  analyze X fs req = (Response (error_body "No file selected") 400, fs).
Proof. intros Hfile Hname. unfold analyze. by rewrite Hfile, Hname. Qed.

Lemma analyze_bad_extension X fs req video_file :
  files req !! "video" = Some video_file ->
  up_filename video_file <> "" ->
  allowed_file X (up_filename video_file) = false ->
  analyze X fs req
  = (Response
       (error_body "Unsupported file format. Please upload MP4, MOV, or AVI.")
       400, fs).
Proof.
  intros Hfile Hname Hext. unfold analyze. rewrite Hfile.
  rewrite bool_decide_eq_false_2 by done. by rewrite Hext.
Qed.

Lemma post_api_analyze_fits X fs req :
  content_length req <= MAX_CONTENT_LENGTH ->
  post_api_analyze X fs req = analyze X fs req.
Proof.
  intros Hfit. unfold post_api_analyze.
  by destruct (Z.ltb_spec MAX_CONTENT_LENGTH (content_length req)); [lia|].
Qed.

(** C4, as the code has it.  For a request within the size limit the handler
    checks the [video] field, then the file name, then the extension; a
    request that fails a check is answered with status 400 and the message of
    the first check it fails, and the scratch storage is returned as it
    was. *)
Theorem C4_validation_order (X : Externals) (fs : filesystem) (req : request) :
  content_length req <= MAX_CONTENT_LENGTH ->
  (files req !! "video" = None ->
   post_api_analyze X fs req
   = (Response (error_body "No video file uploaded") 400, fs))
  /\ (forall video_file,
        files req !! "video" = Some video_file ->
        up_filename video_file = "" ->
        post_api_analyze X fs req
        = (Response (error_body "No file selected") 400, fs))
  /\ (forall video_file,
        files req !! "video" = Some video_file ->
        up_filename video_file <> "" ->
        allowed_file X (up_filename video_file) = false ->
        post_api_analyze X fs req
        = (Response
             (error_body "Unsupported file format. Please upload MP4, MOV, or AVI.")
             400, fs)).
Proof.
  intros Hfit. rewrite (post_api_analyze_fits X fs req Hfit).
  split; [|split].
  - apply analyze_no_field.
  - intros video_file Hfile Hname.
    by apply (analyze_no_filename X fs req video_file).
  - intros video_file Hfile Hname Hext.
    by apply (analyze_bad_extension X fs req video_file).
Qed.

Lemma C4_validation_order_witness :
  let no_field := {| content_length := 10; files := ∅; form := ∅ |} in
  post_api_analyze demo_world one_video no_field
  = (Response (error_body "No video file uploaded") 400, one_video)
  /\ post_api_analyze demo_world one_video (demo_request "")
     = (Response (error_body "No file selected") 400, one_video)
  /\ post_api_analyze demo_world one_video (demo_request "clip.txt")
     = (Response
          (error_body "Unsupported file format. Please upload MP4, MOV, or AVI.")
          400, one_video).
Proof.
  intros no_field. split; [|split].
  - refine (proj1 (C4_validation_order demo_world one_video no_field _) eq_refl).
    discriminate.
  - refine (proj1 (proj2 (C4_validation_order demo_world one_video
                            (demo_request "") _)) _ eq_refl eq_refl).
    discriminate.
  - refine (proj2 (proj2 (C4_validation_order demo_world one_video
                            (demo_request "clip.txt") _)) _ eq_refl _ eq_refl).
    + discriminate.
    + discriminate.
Defined.

(** C4, as the claim has it, fails: a request over the size limit whose file
    is named clip.txt fails the extension check, and is answered 413, not
    400. *)
Lemma C4_counterexample :
  let req := {| content_length := 600 * 1024 * 1024;
                files := {[ "video" := Upload "clip.txt" [Byte.x00] ]};
                form := ∅ |} in
  files req !! "video" = Some (Upload "clip.txt" [Byte.x00])
  /\ allowed_file demo_world "clip.txt" = false
  /\ post_api_analyze demo_world one_video req
     = (Response
          (error_body "Video file is too large. Please keep it under 500MB.")
          413, one_video).
Proof. intros req. repeat split. Qed.

(** C6. For a request that reaches the save step, the scratch storage the
    handler returns does not hold the upload's path, and is otherwise the
    storage it was given: whether the save raised (leaving a partial file or
    none), the pipeline failed, or the pipeline succeeded. *)
Theorem C6_upload_removed (X : Externals) (fs : filesystem) (req : request)
    (video_file : upload) :
  valid_upload X req video_file ->
  let fs' := (analyze X fs req).2 in
  fs' !! upload_path X video_file = None
  /\ fs' = delete (upload_path X video_file) fs.
Proof.
  intros Hvalid fs'. subst fs'. rewrite (analyze_valid X fs req _ Hvalid).
  cbn zeta.
  pose proof (try_block_storage X fs video_file (upload_path X video_file)
                (default "general" (form req !! "stroke_type"))
                (form_student_info X (form req))) as Hst.
  destruct (try_block _ _ _ _ _ _) as [resp fs1]. simpl in *.
  rewrite cleanup_delete, Hst. split; [apply lookup_delete_eq|done].
Qed.

Lemma C6_upload_removed_witness :
  let path := upload_path demo_world (Upload "clip.mp4" [Byte.x00; Byte.x01]) in
  let after X := (analyze X one_video (demo_request "clip.mp4")).2 in
  after demo_world !! path = None
  /\ after (with_ffmpeg (fun _ => FfmpegExit 1 "bad" ∅) demo_world) !! path = None
  /\ after (with_file_save
              (SaveRaises (Raise OSError "No space left on device")
                          (Some [Byte.x00])) demo_world) !! path = None.
Proof.
  intros path after.
  assert (forall X, allowed_file X "clip.mp4" = true ->
            valid_upload X (demo_request "clip.mp4")
              (Upload "clip.mp4" [Byte.x00; Byte.x01])) as Hvalid.
  { intros X HX. split; [reflexivity|]. split; [discriminate|exact HX]. }
  split; [|split].
  - exact (proj1 (C6_upload_removed demo_world one_video _ _
                    (Hvalid demo_world eq_refl))).
  - exact (proj1 (C6_upload_removed _ one_video _ _
                    (Hvalid (with_ffmpeg (fun _ => FfmpegExit 1 "bad" ∅)
                               demo_world) eq_refl))).
  - exact (proj1 (C6_upload_removed _ one_video _ _
                    (Hvalid (with_file_save
                               (SaveRaises
                                  (Raise OSError "No space left on device")
                                  (Some [Byte.x00])) demo_world) eq_refl))).
Defined.

Lemma analyze_tennis_video_success X fs video_path stroke_type student_info api_key :
  exists b,
    analyze_tennis_video X fs video_path stroke_type student_info api_key
    !! "success" = Some (VBool b).
Proof.
  destruct (success_flag_cases X fs video_path stroke_type student_info api_key)
    as [H|H]; rewrite H; eauto.
Qed.

Lemma try_block_saved X fs video_file video_path stroke_type student_info :
  file_save X video_file video_path = Saved ->
  let d := analyze_tennis_video X (<[video_path := up_content video_file]> fs)
             video_path stroke_type (dict_or_none student_info)
             (environ_api_key X) in
  exists b,
    d !! "success" = Some (VBool b)
    /\ (try_block X fs video_file video_path stroke_type student_info).1
       = Response d (if b then 200 else 500).
Proof.
  intros Hsave d. unfold try_block. rewrite Hsave. fold d.
  destruct (analyze_tennis_video_success X
              (<[video_path := up_content video_file]> fs) video_path
              stroke_type (dict_or_none student_info) (environ_api_key X))
    as [b Hb].
  fold d in Hb. rewrite Hb. by exists b.
Qed.

(** C8. The status of the answer to [POST /api/analyze]: 413 for a body over
    the size limit; otherwise 400 when a check on the upload fails; otherwise
    500 when saving the upload raises; otherwise the pipeline's result is the
    body, with 200 when its [success] is true and 500 when it is false.  No
    other status occurs. *)
Theorem C8_http_status (X : Externals) (fs : filesystem) (req : request) :
  let resp := (post_api_analyze X fs req).1 in
  (MAX_CONTENT_LENGTH < content_length req -> status resp = 413)
  /\ (content_length req <= MAX_CONTENT_LENGTH ->
      (files req !! "video" = None
       \/ exists video_file,
            files req !! "video" = Some video_file
            /\ (up_filename video_file = ""
                \/ allowed_file X (up_filename video_file) = false)) ->
      status resp = 400)
  /\ (forall video_file,
        content_length req <= MAX_CONTENT_LENGTH ->
        valid_upload X req video_file ->
        let video_path := upload_path X video_file in
        (forall e partial,
           file_save X video_file video_path = SaveRaises e partial ->
           status resp = 500)
        /\ (file_save X video_file video_path = Saved ->
            let d :=
              analyze_tennis_video X
                (<[video_path := up_content video_file]> fs) video_path
                (default "general" (form req !! "stroke_type"))
                (dict_or_none (form_student_info X (form req)))
                (environ_api_key X) in
            body resp = d
            /\ (d !! "success" = Some (VBool true) -> status resp = 200)
            /\ (d !! "success" = Some (VBool false) -> status resp = 500)))
  /\ status resp ∈ [200; 400; 413; 500].
Proof.
  intros resp. subst resp. unfold post_api_analyze.
  destruct (Z.ltb_spec MAX_CONTENT_LENGTH (content_length req)) as [Hbig|Hfit].
  { simpl. repeat split; try lia; try done.
    elem_of_list. }
  split; [lia|]. split; [|split].
  - intros _ [Hnone|(video_file & Hfile & [Hname|Hext])].
    + by rewrite (analyze_no_field X fs req Hnone).
    + by rewrite (analyze_no_filename X fs req _ Hfile Hname).
    + destruct (decide (up_filename video_file = "")) as [Hname|Hname].
      * by rewrite (analyze_no_filename X fs req _ Hfile Hname).
      * by rewrite (analyze_bad_extension X fs req _ Hfile Hname Hext).
  - intros video_file _ Hvalid.
    rewrite (analyze_valid X fs req _ Hvalid). cbn zeta.
    set (video_path := upload_path X video_file).
    split.
    + intros e partial Hsave. unfold try_block. by rewrite Hsave.
    + intros Hsave.
      set (d := analyze_tennis_video _ _ _ _ _ _).
      destruct (try_block_saved X fs video_file video_path
                  (default "general" (form req !! "stroke_type"))
                  (form_student_info X (form req)) Hsave) as (b & Hb & Hresp).
      fold d in Hb, Hresp.
      destruct (try_block _ _ _ _ _ _) as [resp fs1]. simpl in *. subst resp.
      simpl. split; [done|]. rewrite Hb.
      split; intros [= ->]; done.
  - destruct (files req !! "video") as [video_file|] eqn:Hfile.
    2: { rewrite (analyze_no_field X fs req Hfile). simpl.
         elem_of_list. }
    destruct (decide (up_filename video_file = "")) as [Hname|Hname].
    { rewrite (analyze_no_filename X fs req _ Hfile Hname). simpl.
      elem_of_list. }
    destruct (allowed_file X (up_filename video_file)) eqn:Hext.
    2: { rewrite (analyze_bad_extension X fs req _ Hfile Hname Hext). simpl.
         elem_of_list. }
    rewrite (analyze_valid X fs req video_file) by done. cbn zeta.
    destruct (file_save X video_file (upload_path X video_file))
      as [|e partial] eqn:Hsave.
    + destruct (try_block_saved X fs video_file (upload_path X video_file)
                  (default "general" (form req !! "stroke_type"))
                  (form_student_info X (form req)) Hsave) as (b & _ & Hresp).
      destruct (try_block _ _ _ _ _ _) as [resp fs1]. simpl in *. subst resp.
      simpl. destruct b; elem_of_list.
    + unfold try_block. rewrite Hsave. simpl.
      elem_of_list.
Qed.

Lemma C8_http_status_witness :
  let st X req := status (post_api_analyze X one_video req).1 in
  st demo_world {| content_length := 600 * 1024 * 1024; files := ∅; form := ∅ |} = 413
  /\ st demo_world (demo_request "clip.txt") = 400
  /\ st (with_file_save (SaveRaises (Raise OSError "No space left on device") None)
           demo_world) (demo_request "clip.mp4") = 500
  /\ st demo_world (demo_request "clip.mp4") = 200
  /\ st (with_claude (fun _ => ApiRaises (Raise APIError "overloaded")) demo_world)
       (demo_request "clip.mp4") = 500.
Proof.
  intros st.
  assert (forall X, allowed_file X "clip.mp4" = true ->
            valid_upload X (demo_request "clip.mp4")
              (Upload "clip.mp4" [Byte.x00; Byte.x01])) as Hvalid.
  { intros X HX. split; [reflexivity|]. split; [discriminate|exact HX]. }
  split; [|split; [|split; [|split]]].
  - refine (proj1 (C8_http_status demo_world one_video _) _). reflexivity.
  - refine (proj1 (proj2 (C8_http_status demo_world one_video _)) _ _).
    + discriminate.
    + right. eexists. split; [reflexivity|]. right. reflexivity.
  - refine (proj1 (proj1 (proj2 (proj2 (C8_http_status _ one_video _))) _ _
                     (Hvalid (with_file_save
                                (SaveRaises
                                   (Raise OSError "No space left on device")
                                   None) demo_world) eq_refl))
              _ _ _).
    + discriminate.
    + reflexivity.
  - refine (proj1 (proj2 (proj2 (proj1 (proj2 (proj2
              (C8_http_status demo_world one_video _))) _ _
              (Hvalid demo_world eq_refl)) _)) _).
    + discriminate.
    + reflexivity.
    + reflexivity.
  - refine (proj2 (proj2 (proj2 (proj1 (proj2 (proj2
              (C8_http_status _ one_video _))) _ _
              (Hvalid (with_claude
                         (fun _ => ApiRaises (Raise APIError "overloaded"))
                         demo_world) eq_refl)) _)) _).
    + discriminate.
    + reflexivity.
    + reflexivity.
Defined.

(** ** The student name, seen from the handler *)

Lemma form_student_info_no_name X form :
  form_field form "name" = None -> form_student_info X form !! "name" = None.
Proof.
  intros Hname. unfold form_student_info. rewrite Hname.
  repeat case_match; by simplify_map_eq.
Qed.

Lemma analyze_student_name X fs req video_file :
  valid_upload X req video_file ->
  form_field (form req) "name" = None ->
  let resp := (analyze X fs req).1 in
  status resp = 200 ->
  body resp !! "student_name" = Some (VStr "Student").
Proof.
  intros Hvalid Hname resp. subst resp.
  rewrite (analyze_valid X fs req _ Hvalid). cbn zeta.
  unfold try_block.
  destruct (file_save X video_file _) as [|e partial]; [|done].
  set (info := dict_or_none (form_student_info X (form req))).
  set (fs1 := <[_ := _]> fs).
  destruct (analyze_tennis_video_cases X fs1 (upload_path X video_file)
              (default "general" (form req !! "stroke_type")) info
              (environ_api_key X)) as [(analysis & frames & ->)|(e & ->)].
  - destruct (success_dict_lookups analysis frames
                (default "general" (form req !! "stroke_type")) info)
      as (Hs & _ & _ & _ & Hn & _).
    rewrite Hs. cbn [fst body status truthy]. intros _. rewrite Hn. f_equal.
    subst info. unfold dict_or_none. case_bool_decide as Hempty; [done|].
    unfold student_name, dict_get.
    rewrite (form_student_info_no_name X _ Hname). simpl. by case_match.
  - unfold handle_exception.
    rewrite (proj1 (failure_dict_lookups _)). simpl. done.
Qed.

(** * Further properties of the code *)

(** ** The frames read back from the temporary directory *)

#[local] Instance name_le_total : Total name_le.
Proof. intros a b. unfold name_le. apply (total String.le). Qed.

#[local] Instance name_le_trans : Transitive name_le.
Proof. intros a b c. unfold name_le. apply (transitivity (R := String.le)). Qed.

Lemma elem_of_frame_files dir name content :
  (name, content) ∈ frame_files dir
  <-> dir !! name = Some content /\ glob_frame name = true.
Proof.
  unfold frame_files. rewrite merge_sort_Permutation.
  rewrite list_elem_of_filter, elem_of_map_to_list. simpl. tauto.
Qed.

(** X1. The frame files are the files of the directory that the pattern
    [frame_*.jpg] matches, each once, in ascending order of name; any other
    file the tool left there is ignored. *)
Theorem frame_files_sorted_matching (dir : gmap string bytes) :
  StronglySorted name_le (frame_files dir)
  /\ frame_files dir ≡ₚ matching_files dir
  /\ NoDup (frame_files dir).*1
  /\ (forall name content,
        (name, content) ∈ frame_files dir
        <-> dir !! name = Some content /\ glob_frame name = true).
Proof.
  split; [apply StronglySorted_merge_sort; apply _|].
  split; [apply merge_sort_Permutation|].
  split; [|apply elem_of_frame_files].
  unfold frame_files. rewrite merge_sort_Permutation.
  eapply NoDup_fmap_fst.
  - intros name c1 c2 [_ H1]%list_elem_of_filter [_ H2]%list_elem_of_filter.
    apply elem_of_map_to_list in H1, H2. congruence.
  - apply NoDup_filter, NoDup_map_to_list.
Qed.

Lemma extract_frames_Ok_inv X fs video_path num_frames frames :
  extract_frames X fs video_path num_frames = Ok frames ->
  exists cmd stderr dir,
    extraction_cmd X fs video_path num_frames = Ok cmd
    /\ run_ffmpeg X cmd = FfmpegExit 0 stderr dir
    /\ frames = (fun f => standard_b64encode f.2) <$> frame_files dir
    /\ frame_files dir <> [].
Proof.
  unfold extract_frames.
  destruct (extraction_cmd _ _ _ _) as [cmd|e]; simpl; [|done].
  destruct (run_ffmpeg X cmd) as [rc err dir|e] eqn:Hrun; [|done].
  destruct (Z.eqb_spec rc 0) as [->|Hrc]; simpl; [|done].
  destruct (frame_files dir) as [|f files] eqn:Hfiles; [done|].
  intros [= <-]. exists cmd, err, dir. rewrite Hfiles. done.
Qed.

(** X2. When [extract_frames] returns, ffmpeg has ended with status 0 and
    the list returned holds the base64 text of each matching file of the
    temporary directory, in order of file name; it is never empty, and its
    length is the number of matching files, whatever [num_frames] was. *)
Theorem extract_frames_returns (X : Externals) (fs : filesystem)
    (video_path : string) (num_frames : Z) (frames : list string) :
  extract_frames X fs video_path num_frames = Ok frames ->
  exists cmd stderr dir,
    extraction_cmd X fs video_path num_frames = Ok cmd
    /\ run_ffmpeg X cmd = FfmpegExit 0 stderr dir
    /\ frames = (fun f => standard_b64encode f.2) <$> frame_files dir
    /\ frames <> []
    /\ length frames = length (matching_files dir).
Proof.
  intros (cmd & err & dir & Hcmd & Hrun & -> & Hne)%extract_frames_Ok_inv.
  exists cmd, err, dir. repeat split; try done.
  - destruct (frame_files dir); [done|]. simpl. done.
  - rewrite length_fmap.
    apply Permutation_length, merge_sort_Permutation.
Qed.

Lemma extract_frames_returns_witness :
  exists cmd stderr dir,
    extraction_cmd demo_world one_video "/uploads/v.mp4" 10 = Ok cmd
    /\ run_ffmpeg demo_world cmd = FfmpegExit 0 stderr dir
    /\ ["TQ=="; "TWE="] = (fun f => standard_b64encode f.2) <$> frame_files dir
    /\ ["TQ=="; "TWE="] <> []
    /\ length ["TQ=="; "TWE="] = length (matching_files dir).
Proof.
  exact (extract_frames_returns demo_world one_video "/uploads/v.mp4" 10
           ["TQ=="; "TWE="] eq_refl).
Defined.

(** X3. A successful result counts the frames that were read back, not the
    frames that were asked for: [frames_analyzed] is the length of the list
    [extract_frames] returned, and is at least 1. *)
Theorem frames_analyzed_positive (X : Externals) (fs : filesystem)
    (video_path stroke_type : string)
    (student_info : option (gmap string pyval)) (api_key : option string) :
  let d := analyze_tennis_video X fs video_path stroke_type student_info api_key in
  d !! "success" = Some (VBool true) ->
  exists frames,
    extract_frames X fs video_path FRAMES_TO_EXTRACT = Ok frames
    /\ d !! "frames_analyzed" = Some (VInt (Z.of_nat (length frames)))
    /\ 1 <= Z.of_nat (length frames).
Proof.
  intros d Hsucc. subst d. unfold analyze_tennis_video in *.
  destruct (pipeline_steps _ _ _ _ _ _) as [d|e] eqn:Hp.
  - apply pipeline_steps_Ok in Hp as (analysis & frames & Hf & _ & ->).
    exists frames. split; [done|]. split; [reflexivity|].
    apply extract_frames_returns in Hf as (_ & _ & _ & _ & _ & _ & Hne & _).
    destruct frames; [done|]. simpl. lia.
  - unfold handle_exception in Hsucc.
    by rewrite (proj1 (failure_dict_lookups _)) in Hsucc.
Qed.

Lemma frames_analyzed_positive_witness :
  exists frames,
    extract_frames demo_world one_video "/uploads/v.mp4" FRAMES_TO_EXTRACT
    = Ok frames
    /\ analyze_tennis_video demo_world one_video "/uploads/v.mp4" "serve" None None
       !! "frames_analyzed" = Some (VInt (Z.of_nat (length frames)))
    /\ 1 <= Z.of_nat (length frames).
Proof.
  exact (frames_analyzed_positive demo_world one_video "/uploads/v.mp4" "serve"
           None None eq_refl).
Defined.

(** ** The order of the checks, and where failures are reported *)

(** X6. The existence check comes first: for a path that is not there,
    [extract_frames] raises [FileNotFoundError] naming the path, for every
    frame count (0 included) and whatever the tools would do; neither
    ffprobe nor ffmpeg decides anything. *)
Theorem extract_frames_missing_first (X X' : Externals) (fs : filesystem)
    (video_path : string) (num_frames : Z) :
  path_exists fs video_path = false ->
  extract_frames X fs video_path num_frames
  = Err (Raise FileNotFoundError ("Video not found: " +:+ video_path))
  /\ extract_frames X' fs video_path num_frames
     = extract_frames X fs video_path num_frames.
Proof.
  intros Hex.
  pose proof (fun Y => extract_frames_cmd_Err Y fs video_path num_frames _
                         (extraction_cmd_missing Y fs video_path num_frames Hex))
    as H.
  by rewrite !H.
Qed.

Lemma extract_frames_missing_first_witness :
  extract_frames demo_world ∅ "/uploads/v.mp4" 0
  = Err (Raise FileNotFoundError "Video not found: /uploads/v.mp4")
  /\ extract_frames (with_ffmpeg echo_ffmpeg demo_world) ∅ "/uploads/v.mp4" 0
     = extract_frames demo_world ∅ "/uploads/v.mp4" 0.
Proof.
  exact (extract_frames_missing_first demo_world
           (with_ffmpeg echo_ffmpeg demo_world) ∅ "/uploads/v.mp4" 0 eq_refl).
Defined.

(** X7. A frame count of 0 makes [extract_frames] raise
    [ZeroDivisionError] once the video is found and probed; ffmpeg is not
    run, so the outcome is the same whatever ffmpeg would do. *)
Theorem extract_frames_zero_count (X : Externals) (fs : filesystem)
    (video_path : string) (duration : Q)
    (ffmpeg : list string -> ffmpeg_outcome) :
  path_exists fs video_path = true ->
  run_ffprobe X (ffprobe_cmd video_path) = ProbeDuration duration ->
  exists e,
    exn_cls e = ZeroDivisionError
    /\ extract_frames X fs video_path 0 = Err e
    /\ extract_frames (with_ffmpeg ffmpeg X) fs video_path 0 = Err e.
Proof.
  intros Hex Hp.
  exists (Raise ZeroDivisionError
            (if over_cap duration then "division by zero"
             else "float division by zero")).
  split; [done|].
  unfold extract_frames, extraction_cmd, get_video_duration. simpl.
  by rewrite Hex, Hp.
Qed.

Lemma extract_frames_zero_count_witness :
  exists e,
    exn_cls e = ZeroDivisionError
    /\ extract_frames demo_world one_video "/uploads/v.mp4" 0 = Err e
    /\ extract_frames (with_ffmpeg echo_ffmpeg demo_world) one_video
         "/uploads/v.mp4" 0 = Err e.
Proof.
  exact (extract_frames_zero_count demo_world one_video "/uploads/v.mp4" 30
           echo_ffmpeg eq_refl eq_refl).
Defined.

(** X8. [FileNotFoundError] is also what [subprocess.run] raises when
    ffprobe or ffmpeg is not installed, and the first [except] clause takes
    it: the result then carries the "Video file not found: " message although
    the video is there. *)
Theorem missing_tool_reported_as_missing_video (X : Externals) (fs : filesystem)
    (video_path stroke_type : string)
    (student_info : option (gmap string pyval)) (api_key : option string)
    (msg : string) :
  path_exists fs video_path = true ->
  let d := analyze_tennis_video X fs video_path stroke_type student_info api_key in
  (run_ffprobe X (ffprobe_cmd video_path)
   = ProbeRaises (Raise FileNotFoundError msg) ->
   d = failure_dict ("Video file not found: " +:+ msg))
  /\ (forall duration,
        run_ffprobe X (ffprobe_cmd video_path) = ProbeDuration duration ->
        run_ffmpeg X
          (ffmpeg_cmd video_path
             (capped_duration duration / inject_Z FRAMES_TO_EXTRACT)
             FRAMES_TO_EXTRACT (mkdtemp X))
        = FfmpegRaises (Raise FileNotFoundError msg) ->
        d = failure_dict ("Video file not found: " +:+ msg)).
Proof.
  intros Hex d. subst d. split.
  - intros Hp.
    by rewrite (analyze_tennis_video_extract_Err _ _ _ _ _ _ _
                  (extract_frames_cmd_Err _ _ _ _ _
                     (extraction_cmd_probe_raises X fs video_path _ _ Hex Hp))).
  - intros duration Hp Hrun.
    rewrite (analyze_tennis_video_extract_Err _ _ _ _ _ _
               (Raise FileNotFoundError msg)); [done|].
    unfold extract_frames.
    rewrite (extraction_cmd_Ok X fs video_path _ duration Hex Hp) by done.
    simpl. by rewrite Hrun.
Qed.

Lemma missing_tool_reported_as_missing_video_witness :
  let msg := "[Errno 2] No such file or directory: 'ffprobe'" in
  analyze_tennis_video
    (with_ffprobe (ProbeRaises (Raise FileNotFoundError msg)) demo_world)
    one_video "/uploads/v.mp4" "serve" None None
  = failure_dict ("Video file not found: " +:+ msg).
Proof.
  intros msg.
  refine (proj1 (missing_tool_reported_as_missing_video
                   (with_ffprobe (ProbeRaises (Raise FileNotFoundError msg))
                      demo_world)
                   one_video "/uploads/v.mp4" "serve" None None msg _) _).
  - reflexivity.
  - reflexivity.
Defined.

(** X9. When the frames are extracted and the call to the model raises an
    [APIError], the result is the failure dict with the message
    "Claude API error: ..."; the request that was sent holds the model name,
    2048 as token limit, the system prompt and the frames' message. *)
Theorem remote_failure (X : Externals) (fs : filesystem)
    (video_path stroke_type : string)
    (student_info : option (gmap string pyval)) (api_key : option string)
    (frames : list string) (msg : string) :
  extract_frames X fs video_path FRAMES_TO_EXTRACT = Ok frames ->
  claude X
    {| req_api_key := str_or api_key (environ_api_key X);
       req_model := "claude-opus-4-6";
       req_max_tokens := 2048;
       req_system := SYSTEM_PROMPT;
       req_role := "user";
       req_content := message_content X frames stroke_type student_info |}
  = ApiRaises (Raise APIError msg) ->
  analyze_tennis_video X fs video_path stroke_type student_info api_key
  = failure_dict ("Claude API error: " +:+ msg).
Proof.
  intros Hf Hc. unfold analyze_tennis_video, pipeline_steps. rewrite Hf. simpl.
  unfold analyze_frames_with_claude, claude_request, CLAUDE_MODEL.
  by rewrite Hc.
Qed.

Lemma remote_failure_witness :
  analyze_tennis_video
    (with_claude (fun _ => ApiRaises (Raise APIError "overloaded")) demo_world)
    one_video "/uploads/v.mp4" "serve" None None
  = failure_dict "Claude API error: overloaded".
Proof.
  exact (remote_failure
           (with_claude (fun _ => ApiRaises (Raise APIError "overloaded"))
              demo_world)
           one_video "/uploads/v.mp4" "serve" None None
           ["TQ=="; "TWE="] "overloaded" eq_refl eq_refl).
Defined.

(** X10. The four message prefixes tell the categories apart: two error
    texts of different categories are never equal, whatever the exceptions
    said. *)
Theorem error_category_readable (c1 c2 : category) (m1 m2 : string) :
  category_prefix c1 +:+ m1 = category_prefix c2 +:+ m2 -> c1 = c2.
Proof. destruct c1, c2; simpl; intros H; try done; discriminate H. Qed.

Lemma error_category_readable_witness :
  except_clause (exn_cls (Raise RuntimeError "No frames")) = Processing.
Proof.
  exact (error_category_readable
           (except_clause (exn_cls (Raise RuntimeError "No frames"))) Processing
           "No frames" "No frames" eq_refl).
Defined.

(** ** The prompt *)

Lemma dict_truthy_empty : dict_truthy (Some ∅) = false.
Proof. unfold dict_truthy. by rewrite bool_decide_eq_true_2. Qed.

Lemma dict_truthy_nonempty (d : gmap string pyval) :
  d <> ∅ -> dict_truthy (Some d) = true.
Proof. intros H. unfold dict_truthy. by rewrite bool_decide_eq_false_2. Qed.

(** X11. An empty student dict counts as no student info at all: the
    prompt has no profile block, the request sent to the model is the same,
    and so is the whole result. *)
Theorem empty_student_info_as_none (X : Externals) (fs : filesystem)
    (video_path stroke_type : string) (api_key : option string) :
  (forall n, build_user_prompt X n stroke_type (Some ∅)
             = build_user_prompt X n stroke_type None)
  /\ (forall frames,
        claude_request X frames stroke_type (Some ∅) api_key
        = claude_request X frames stroke_type None api_key)
  /\ analyze_tennis_video X fs video_path stroke_type (Some ∅) api_key
     = analyze_tennis_video X fs video_path stroke_type None api_key.
Proof.
  assert (student_context (Some ∅) = student_context None) as Hctx.
  { unfold student_context. by rewrite dict_truthy_empty. }
  assert (forall n, build_user_prompt X n stroke_type (Some ∅)
                    = build_user_prompt X n stroke_type None) as Hprompt.
  { intros n. unfold build_user_prompt. by rewrite Hctx. }
  assert (forall frames,
            claude_request X frames stroke_type (Some ∅) api_key
            = claude_request X frames stroke_type None api_key) as Hreq.
  { intros frames. unfold claude_request, message_content.
    by rewrite Hprompt. }
  split; [done|]. split; [done|].
  unfold analyze_tennis_video, pipeline_steps.
  destruct (extract_frames _ _ _ _) as [frames|e]; simpl; [|done].
  unfold analyze_frames_with_claude. rewrite Hreq.
  destruct (claude X _) as [text|e]; simpl; [|done].
  unfold success_dict, student_name. by rewrite dict_truthy_empty.
Qed.

(** X12. In the profile block a false value is a missing value: an age of 0
    or an empty [concerns] text gives the same prompt as a dict without that
    key, as long as the dict has another key left. *)
Theorem falsy_field_omitted (X : Externals) (d : gmap string pyval)
    (k : string) (v : pyval) :
  k = "age" \/ k = "concerns" ->
  d !! k = Some v ->
  truthy v = false ->
  delete k d <> ∅ ->
  forall n stroke_type,
    build_user_prompt X n stroke_type (Some d)
    = build_user_prompt X n stroke_type (Some (delete k d)).
Proof.
  intros Hk Hv Hfalse Hrest n stroke_type.
  assert (d <> ∅) as Hd by (intros ->; by rewrite lookup_empty in Hv).
  unfold build_user_prompt, student_context.
  rewrite (dict_truthy_nonempty _ Hd), (dict_truthy_nonempty _ Hrest).
  unfold dict_get.
  destruct Hk as [-> | ->].
  - rewrite Hv, lookup_delete_eq, !lookup_delete_ne by done. simpl.
    by rewrite Hfalse.
  - rewrite Hv, lookup_delete_eq, !lookup_delete_ne by done. simpl.
    by rewrite Hfalse.
Qed.

Lemma falsy_field_omitted_witness :
  build_user_prompt demo_world 10 "serve"
    (Some {[ "age" := VInt 0; "level" := VStr "beginner" ]})
  = build_user_prompt demo_world 10 "serve"
      (Some (delete "age" {[ "age" := VInt 0; "level" := VStr "beginner" ]})).
Proof.
  refine (falsy_field_omitted demo_world
            {[ "age" := VInt 0; "level" := VStr "beginner" ]}
            "age" (VInt 0) (or_introl eq_refl) eq_refl eq_refl _ 10 "serve").
  intros H. apply (f_equal (fun m => m !! "level")) in H.
  vm_compute in H. discriminate H.
Defined.

Lemma str_length_app (a b : string) :
  String.length (a +:+ b) = (String.length a + String.length b)%nat.
Proof.
  induction a as [|x a IH]; [done|].
  change (String x a +:+ b) with (String x (a +:+ b)). simpl. by rewrite IH.
Qed.

Lemma str_app_inv_tail (s1 s2 t : string) :
  String.length t = 1%nat -> s1 +:+ t = s2 +:+ t -> s1 = s2.
Proof.
  intros Ht. revert s2.
  induction s1 as [|a s1 IH]; intros [|b s2] H.
  - done.
  - apply (f_equal String.length) in H.
    rewrite !str_length_app in H. simpl in H. lia.
  - apply (f_equal String.length) in H.
    rewrite !str_length_app in H. simpl in H. lia.
  - change (String a (s1 +:+ t) = String b (s2 +:+ t)) in H.
    injection H as -> H. f_equal. by apply IH.
Qed.

Lemma frame_label_inj i j : frame_label i = frame_label j -> i = j.
Proof.
  unfold frame_label. intros [= H].
  apply (str_app_inv_tail _ _ "]" eq_refl) in H.
  apply (inj pretty) in H. lia.
Qed.

(** X14. The labels are all different: two frames of one message never
    carry the same "[Frame k]" text, so a frame number names one frame. *)
Theorem frame_labels_distinct (X : Externals) (frames : list string)
    (stroke_type : string) (student_info : option (gmap string pyval))
    (k k' : nat) :
  (k < length frames)%nat ->
  (k' < length frames)%nat ->
  k <> k' ->
  message_content X frames stroke_type student_info !! (2 * k + 1)%nat
  <> message_content X frames stroke_type student_info !! (2 * k' + 1)%nat.
Proof.
  intros Hk Hk' Hne Heq.
  destruct (lookup_lt_is_Some_2 frames k Hk) as [f Hf].
  destruct (lookup_lt_is_Some_2 frames k' Hk') as [f' Hf'].
  rewrite message_content_eq in Heq.
  rewrite !lookup_app_l in Heq by (rewrite length_labelled_from; lia).
  rewrite (proj2 (lookup_labelled_from frames 0 k f Hf)) in Heq.
  rewrite (proj2 (lookup_labelled_from frames 0 k' f' Hf')) in Heq.
  apply (inj Some) in Heq. by apply frame_label_inj in Heq.
Qed.

Lemma frame_labels_distinct_witness :
  message_content demo_world ["QUFB"; "QkJC"; "Q0ND"] "serve" None !! 1%nat
  <> message_content demo_world ["QUFB"; "QkJC"; "Q0ND"] "serve" None !! 5%nat.
Proof.
  refine (frame_labels_distinct demo_world ["QUFB"; "QkJC"; "Q0ND"] "serve"
            None 0 2 _ _ _).
  - simpl. lia.
  - simpl. lia.
  - discriminate.
Defined.

(** ** The form fields *)

Lemma char_count_str_take n s : (char_count (str_take n s) <= n)%nat.
Proof.
  revert n. induction s as [|c s IH]; intros n; simpl; [lia|].
  destruct (is_continuation c) eqn:Hc; simpl.
  - rewrite Hc. apply IH.
  - destruct n as [|n]; simpl; [lia|]. rewrite Hc. specialize (IH n). lia.
Qed.

Lemma form_student_info_text_fields X form :
  form_student_info X form !! "name"
  = (fun s => VStr (str_take 50 (str_strip X s))) <$> form_field form "name"
  /\ form_student_info X form !! "concerns"
     = (fun s => VStr (str_take 500 (str_strip X s)))
       <$> form_field form "concerns".
Proof.
  unfold form_student_info.
  destruct (form_field form "name") as [name|];
    destruct (form_field form "age") as [age|];
    destruct (form_field form "level") as [level|];
    destruct (form_field form "concerns") as [concerns|];
    cbn -[str_take];
    try destruct (str_int X age) as [z|];
    cbn -[str_take];
    split;
    by repeat first [ rewrite lookup_insert_eq
                    | rewrite lookup_insert_ne by done
                    | rewrite lookup_empty ].
Qed.

(** X16. The name kept in the student info is at most 50 characters long
    and the concerns at most 500, however long the fields sent were and
    whatever [strip] removed. *)
Theorem form_student_info_caps (X : Externals) (form : gmap string string)
    (s : string) :
  (form_student_info X form !! "name" = Some (VStr s) ->
   (char_count s <= 50)%nat)
  /\ (form_student_info X form !! "concerns" = Some (VStr s) ->
      (char_count s <= 500)%nat).
Proof.
  destruct (form_student_info_text_fields X form) as [Hn Hc].
  rewrite Hn, Hc. split.
  - destruct (form_field form "name") as [name|]; cbn -[str_take]; [|done].
    intros H.
    assert (str_take 50 (str_strip X name) = s) as <- by congruence.
    apply char_count_str_take.
  - destruct (form_field form "concerns") as [concerns|];
      cbn -[str_take]; [|done].
    intros H.
    assert (str_take 500 (str_strip X concerns) = s) as <- by congruence.
    apply char_count_str_take.
Qed.

Lemma form_student_info_caps_witness :
  (char_count "Alexandria Cassandra Montgomery-Featherstonehaugh "
   <= 50)%nat.
Proof.
  refine (proj1 (form_student_info_caps demo_world
                   {[ "name" := "  Alexandria Cassandra Montgomery-Featherstonehaugh III  " ]}
                   _) _).
  vm_compute. reflexivity.
Defined.

(** ** The handler, on every path *)

Lemma try_block_response X fs video_file video_path stroke_type student_info :
  let r := (try_block X fs video_file video_path stroke_type student_info).1 in
  (exists e, r = server_error e)
  \/ (exists analysis frames,
        r = Response (success_dict analysis frames stroke_type
                        (dict_or_none student_info)) 200)
  \/ (exists e, r = Response (handle_exception e) 500).
Proof.
  intros r. subst r. unfold try_block.
  destruct (file_save X video_file video_path) as [|e partial]; [|by eauto].
  set (fs1 := <[_ := _]> fs).
  destruct (analyze_tennis_video_cases X fs1 video_path stroke_type
              (dict_or_none student_info) (environ_api_key X))
    as [(analysis & frames & ->)|(e & ->)].
  - rewrite (proj1 (success_dict_lookups _ _ _ _)). right. left. by eauto.
  - unfold handle_exception at 1.
    rewrite (proj1 (failure_dict_lookups _)). right. right. by eauto.
Qed.

Lemma analyze_cases X fs req :
  (exists msg, analyze X fs req = (Response (error_body msg) 400, fs))
  \/ exists video_file,
       valid_upload X req video_file
       /\ (analyze X fs req).2 = delete (upload_path X video_file) fs
       /\ let r := (analyze X fs req).1 in
          let stroke_type := default "general" (form req !! "stroke_type") in
          let info := dict_or_none (form_student_info X (form req)) in
          (exists e, r = server_error e)
          \/ (exists analysis frames,
                r = Response (success_dict analysis frames stroke_type info) 200)
          \/ (exists e, r = Response (handle_exception e) 500).
Proof.
  destruct (files req !! "video") as [video_file|] eqn:Hfile.
  2: { left. eexists. by apply analyze_no_field. }
  destruct (decide (up_filename video_file = "")) as [Hname|Hname].
  { left. eexists. by apply (analyze_no_filename X fs req video_file). }
  destruct (allowed_file X (up_filename video_file)) eqn:Hext.
  2: { left. eexists. by apply (analyze_bad_extension X fs req video_file). }
  right. exists video_file.
  assert (valid_upload X req video_file) as Hvalid by done.
  split; [done|]. rewrite (analyze_valid X fs req _ Hvalid). cbn zeta.
  pose proof (try_block_storage X fs video_file (upload_path X video_file)
                (default "general" (form req !! "stroke_type"))
                (form_student_info X (form req))) as Hst.
  pose proof (try_block_response X fs video_file (upload_path X video_file)
                (default "general" (form req !! "stroke_type"))
                (form_student_info X (form req))) as Hresp.
  destruct (try_block _ _ _ _ _ _) as [resp fs1]. simpl in *.
  split; [by rewrite cleanup_delete|done].
Qed.

(** X17. The handler never adds a file to the scratch storage: what it
    returns is the storage it was given, less at most the upload's own path.
    When that path was free before, the storage comes back unchanged. *)
Theorem scratch_storage_never_grows (X : Externals) (fs : filesystem)
    (req : request) :
  let fs' := (post_api_analyze X fs req).2 in
  fs' ⊆ fs
  /\ (forall p, fs' !! p <> fs !! p ->
        exists video_file,
          files req !! "video" = Some video_file
          /\ p = upload_path X video_file)
  /\ ((forall video_file, files req !! "video" = Some video_file ->
         fs !! upload_path X video_file = None) ->
      fs' = fs).
Proof.
  intros fs'. subst fs'. unfold post_api_analyze.
  destruct (Z.ltb_spec MAX_CONTENT_LENGTH (content_length req)) as [_|_];
    [done|].
  destruct (analyze_cases X fs req)
    as [[msg ->]|(video_file & (Hfile & _) & -> & _)]; [done|].
  split; [apply delete_subseteq|]. split.
  - intros p Hp. exists video_file. split; [done|].
    destruct (decide (p = upload_path X video_file)) as [->|Hne]; [done|].
    by rewrite lookup_delete_ne in Hp.
  - intros Hfree. apply delete_id. by apply Hfree.
Qed.

(** X18. In every answer to [POST /api/analyze] the body's [success] is a
    boolean that is true exactly when the status is 200; an answer with
    another status carries a text in [error], and a 200 answer carries null
    in [error] and a text in [analysis]. *)
Theorem success_flag_matches_status (X : Externals) (fs : filesystem)
    (req : request) :
  let r := (post_api_analyze X fs req).1 in
  body r !! "success" = Some (VBool (bool_decide (status r = 200)))
  /\ (status r <> 200 -> exists msg, body r !! "error" = Some (VStr msg))
  /\ (status r = 200 ->
      body r !! "error" = Some VNone
      /\ exists text, body r !! "analysis" = Some (VStr text)).
Proof.
  intros r. subst r. unfold post_api_analyze.
  destruct (Z.ltb_spec MAX_CONTENT_LENGTH (content_length req)) as [_|_].
  { simpl. split; [done|]. split; [by eauto|done]. }
  destruct (analyze_cases X fs req)
    as [[msg ->]|(video_file & _ & _ & [[e ->]|[(a & f & ->)|[e ->]]])].
  - simpl. split; [done|]. split; [by eauto|done].
  - simpl. split; [done|]. split; [by eauto|done].
  - cbn [body status].
    destruct (success_dict_lookups a f
                (default "general" (form req !! "stroke_type"))
                (dict_or_none (form_student_info X (form req))))
      as (-> & -> & _ & _ & _ & -> & _).
    split; [done|]. split; [done|]. by eauto.
  - cbn [body status]. unfold handle_exception.
    destruct (failure_dict_lookups
                (category_prefix (except_clause (exn_cls e)) +:+ exn_msg e))
      as (-> & -> & _).
    split; [done|]. split; [by eauto|done].
Qed.

Lemma scratch_storage_never_grows_witness :
  (post_api_analyze demo_world one_video (demo_request "clip.mp4")).2 = one_video.
Proof.
  refine (proj2 (proj2 (scratch_storage_never_grows demo_world one_video
                          (demo_request "clip.mp4"))) _).
  intros video_file Hfile. vm_compute in Hfile.
  injection Hfile as <-. reflexivity.
Defined.

Lemma success_flag_matches_status_witness :
  exists msg,
    body (post_api_analyze demo_world one_video (demo_request "notes.txt")).1
    !! "error" = Some (VStr msg).
Proof.
  refine (proj1 (proj2 (success_flag_matches_status demo_world one_video
                          (demo_request "notes.txt"))) _).
  discriminate.
Defined.

Lemma extract_frames_Ok X fs video_path num_frames duration stderr dir :
  path_exists fs video_path = true ->
  run_ffprobe X (ffprobe_cmd video_path) = ProbeDuration duration ->
  num_frames <> 0 ->
  run_ffmpeg X
    (ffmpeg_cmd video_path (capped_duration duration / inject_Z num_frames)
       num_frames (mkdtemp X))
  = FfmpegExit 0 stderr dir ->
  frame_files dir <> [] ->
  extract_frames X fs video_path num_frames
  = Ok ((fun f => standard_b64encode f.2) <$> frame_files dir).
Proof.
  intros Hex Hp Hn Hrun Hne. unfold extract_frames.
  rewrite (extraction_cmd_Ok X fs video_path num_frames duration Hex Hp Hn).
  simpl. rewrite Hrun. simpl. by destruct (frame_files dir).
Qed.

(** X19. The whole request, when nothing fails.  Once the upload is saved
    the existence check of the pipeline passes by itself; if then ffprobe
    gives a duration, ffmpeg ends with status 0 leaving at least one frame
    file, and the model answers, the handler returns status 200 with the six
    keys: the model's text, the number of frame files found, the stroke type
    sent ("general" when the field is absent) and the student name.  The
    upload is gone from the scratch storage. *)
Theorem upload_success_end_to_end (X : Externals) (fs : filesystem)
    (req : request) (video_file : upload) (duration : Q) (stderr : string)
    (dir : gmap string bytes) (text : string) :
  content_length req <= MAX_CONTENT_LENGTH ->
  valid_upload X req video_file ->
  let video_path := upload_path X video_file in
  let stroke_type := default "general" (form req !! "stroke_type") in
  let info := dict_or_none (form_student_info X (form req)) in
  let frames := (fun f => standard_b64encode f.2) <$> frame_files dir in
  file_save X video_file video_path = Saved ->
  run_ffprobe X (ffprobe_cmd video_path) = ProbeDuration duration ->
  run_ffmpeg X
    (ffmpeg_cmd video_path
       (capped_duration duration / inject_Z FRAMES_TO_EXTRACT)
       FRAMES_TO_EXTRACT (mkdtemp X))
  = FfmpegExit 0 stderr dir ->
  frame_files dir <> [] ->
  claude X (claude_request X frames stroke_type info (environ_api_key X))
  = ApiText text ->
  post_api_analyze X fs req
  = (Response
       (list_to_map
          [ ("success", VBool true);
            ("analysis", VStr text);
            ("frames_analyzed", VInt (Z.of_nat (length (frame_files dir))));
            ("stroke_type", VStr stroke_type);
            ("student_name", student_name info);
            ("error", VNone) ])
       200,
     delete video_path fs).
Proof.
  intros Hfit Hvalid video_path stroke_type info frames Hsave Hp Hrun Hne Hc.
  unfold post_api_analyze.
  destruct (Z.ltb_spec MAX_CONTENT_LENGTH (content_length req)); [lia|].
  rewrite (analyze_valid X fs req _ Hvalid). cbn zeta.
  fold video_path stroke_type.
  pose proof (try_block_storage X fs video_file video_path stroke_type
                (form_student_info X (form req))) as Hst.
  unfold try_block in *. rewrite Hsave in *.
  set (fs1 := <[video_path := up_content video_file]> fs) in *.
  assert (path_exists fs1 video_path = true) as Hex.
  { unfold path_exists, fs1. rewrite lookup_insert_eq.
    by apply bool_decide_eq_true_2. }
  assert (analyze_tennis_video X fs1 video_path stroke_type info
            (environ_api_key X)
          = success_dict text frames stroke_type info) as Hd.
  { apply analyze_tennis_video_Ok.
    - by apply (extract_frames_Ok X fs1 video_path _ duration stderr dir).
    - unfold analyze_frames_with_claude. by rewrite Hc. }
  fold info in Hst |- *. rewrite Hd in *.
  rewrite (proj1 (success_dict_lookups _ _ _ _)) in *. simpl in Hst.
  rewrite cleanup_delete, Hst. unfold success_dict, frames.
  by rewrite length_fmap.
Qed.

Lemma upload_success_end_to_end_witness :
  (post_api_analyze demo_world one_video (demo_request "clip.mp4")).1
  = Response
      (list_to_map
         [ ("success", VBool true);
           ("analysis", VStr "Nice swing");
           ("frames_analyzed", VInt 2);
           ("stroke_type", VStr "forehand");
           ("student_name", VStr "Student");
           ("error", VNone) ])
      200.
Proof.
  assert (valid_upload demo_world (demo_request "clip.mp4")
            (Upload "clip.mp4" [Byte.x00; Byte.x01])) as Hvalid.
  { split; [reflexivity|]. split; [discriminate|reflexivity]. }
  refine (f_equal fst
            (upload_success_end_to_end demo_world one_video
               (demo_request "clip.mp4") _ 30 "" two_frames "Nice swing"
               _ Hvalid _ _ _ _ _)).
  - discriminate.
  - reflexivity.
  - reflexivity.
  - reflexivity.
  - intros H. vm_compute in H. discriminate H.
  - reflexivity.
Defined.

(** X20. When a name is sent and the answer has status 200, [student_name]
    is the name as [strip] leaves it, cut to its first 50 characters: in
    particular a name that [strip] empties gives the empty string, not the
    placeholder. *)
Theorem student_name_from_form (X : Externals) (fs : filesystem)
    (req : request) (name : string) :
  let r := (post_api_analyze X fs req).1 in
  form_field (form req) "name" = Some name ->
  status r = 200 ->
  body r !! "student_name" = Some (VStr (str_take 50 (str_strip X name))).
Proof.
  intros r Hname. subst r. unfold post_api_analyze.
  destruct (Z.ltb_spec MAX_CONTENT_LENGTH (content_length req)) as [_|_];
    [done|].
  destruct (analyze_cases X fs req)
    as [[msg ->]|(video_file & _ & _ & [[e ->]|[(a & f & ->)|[e ->]]])];
    try done.
  intros _. cbn [body fst].
  destruct (success_dict_lookups a f
              (default "general" (form req !! "stroke_type"))
              (dict_or_none (form_student_info X (form req))))
    as (_ & _ & _ & _ & -> & _). f_equal.
  pose proof (proj1 (form_student_info_text_fields X (form req))) as Hn.
  rewrite Hname in Hn. cbn -[str_take] in Hn.
  unfold dict_or_none. case_bool_decide as Hempty.
  { rewrite Hempty, lookup_empty in Hn. done. }
  unfold student_name. rewrite (dict_truthy_nonempty _ Hempty).
  unfold dict_get. by rewrite Hn.
Qed.

Lemma student_name_from_form_witness :
  let req := {| content_length := 1000;
                files := {[ "video" := Upload "clip.mp4" [Byte.x00] ]};
                form := {[ "name" := "   " ]} |} in
  body (post_api_analyze demo_world one_video req).1 !! "student_name"
  = Some (VStr "").
Proof.
  intros req.
  refine (student_name_from_form demo_world one_video req "   " _ _).
  - reflexivity.
  - reflexivity.
Defined.

(** ** The health endpoint and the key sent to the model *)

(** X21. [GET /api/health] says [api_key_set] exactly when the requests the
    handler makes to the model carry a key that is not empty (the handler
    passes the environment's key, and an absent or empty one stays so); and
    the [upload_dir] it reports is the directory every upload is saved in,
    under a name that starts with the random part. *)
Theorem health_agrees_with_handler (X : Externals) (frames : list string)
    (stroke_type : string) (student_info : option (gmap string pyval))
    (video_file : upload) :
  let sent :=
    req_api_key (claude_request X frames stroke_type student_info
                   (environ_api_key X)) in
  health X !! "status" = Some (VStr "ok")
  /\ (health X !! "api_key_set" = Some (VBool true)
      <-> exists key, sent = Some key /\ key <> "")
  /\ (health X !! "api_key_set" = Some (VBool false)
      <-> sent = None \/ sent = Some "")
  /\ exists dir,
       health X !! "upload_dir" = Some (VStr dir)
       /\ upload_path X video_file
          = dir +:+ "/" +:+ uuid4_hex X +:+ "_"
            +:+ secure_filename X (up_filename video_file).
Proof.
  intros sent. subst sent. unfold claude_request. cbn [req_api_key].
  assert (health X !! "api_key_set"
          = Some (VBool (str_truthy (environ_api_key X)))) as ->
    by reflexivity.
  split; [reflexivity|].
  unfold str_truthy, str_or.
  destruct (environ_api_key X) as [key|]; [case_bool_decide as Hk|]; simpl.
  - subst key. split; [|split; [|by eexists]].
    + split; [done|]. by intros (key & [= <-] & ?).
    + split; [by right|done].
  - split; [|split; [|by eexists]].
    + split; [|done]. intros _. by exists key.
    + split; [done|]. intros [?|[= ?]]; done.
  - split; [|split; [|by eexists]].
    + split; [done|]. by intros (key & ? & ?).
    + split; [by left|done].
Qed.
